(** * sanity-plugin-external-dam: the upload workflow, the Firebase adapter
      and the signed-URL endpoint

    A shallow embedding of

    - [src/components/Uploader/uploadMachine.ts]: the xstate machine that
      drives one upload (module [UploadMachine]);
    - [packages/firebase/src/config.ts]: the [deleteFile] and [uploadFile]
      capabilities of the Firebase vendor (module [FirebaseConfig]);
    - [packages/aws/getSignedUrl.example.js]: the Lambda handler that issues
      presigned uploads (module [GetSignedUrl]).

    Definitions come first, module by module; the statements about them
    follow in the second half of the file. *)

From Stdlib Require Import ZArith QArith Qround String Ascii List Bool Lia Lqa.
Import ListNotations.

Local Open Scope string_scope.

(** ** JavaScript values shared by the three files *)

Module Js.

(** [s.includes(sub)]: [sub] occurs somewhere in [s]. *)
Fixpoint includes (s sub : string) {struct s} : bool :=
  String.prefix sub s
  || match s with
     | EmptyString => false
     | String _ rest => includes rest sub
     end.

(** A thrown or reported error object: [code] is what the vendor SDKs add
    to a plain [Error]. *)
Record Error := mkError {
  code : option string;
  message : string
}.

(** How a promise (or a [try] block) ends. *)
Inductive Completion (A E : Type) : Type :=
| resolved (a : A)
| rejected (e : E).
Arguments resolved {A E} a.
Arguments rejected {A E} e.

(** [!!x] for an optional object: objects are truthy, [undefined] is not. *)
Definition truthy {A : Type} (x : option A) : bool :=
  match x with Some _ => true | None => false end.

End Js.

(** ** The upload machine *)

Module UploadMachine.
Import Js.

(** The browser's [File]: the machine only reads [type]. *)
Record File := mkFile {
  name : string;
  type : string;
  size : Z
}.

(** The record the vendor adapter hands to [onSuccess]
    (packages/firebase/src/config.ts, lines 80-92). *)
Record FirebaseFile := mkFirebaseFile {
  bucket : option string;
  contentDisposition : option string;
  contentEncoding : option string;
  fullPath : option string;
  md5Hash : option string;
  generation : option string;
  metageneration : option string;
  firebase_type : option string
}.

Record VendorUpload := mkVendorUpload {
  fileURL : string;
  firebase : option FirebaseFile
}.

Record Dimensions := mkDimensions { width : Z; height : Z }.

(** What the two extraction services resolve with under [metadata]:
    video gives [duration] and [dimensions], audio gives [duration] and
    [waveformData]; a key that was never written is [None]. *)
Record FileMetadata := mkFileMetadata {
  duration : option Q;
  dimensions : option Dimensions;
  waveformData : option (list Q)
}.

(** The document the content store returns, with the fields
    packages/core/src/components/FileMetadata.tsx reads. *)
Record SanityUpload := mkSanityUpload {
  _createdAt : string;
  title_ : option string;
  description : option string;
  externalFile : option (string * Z);
  metadata : option FileMetadata
}.

(** [canvas.toBlob] result. *)
Record Blob := mkBlob { blob_type : string; blob_bytes : string }.

(** [Context.error]; the member named [error] in the source is [cause]
    here, since [error] is the context's own field. *)
Record ErrorInfo := mkErrorInfo {
  cause : option Error;
  title : option string;
  subtitle : option string
}.

(** [interface Context] (lines 12-29).  [retries] counts from 0 in steps
    of one, so it is an integer; a [?] member is an [option]. *)
Record Context := mkContext {
  retries : Z;
  vendorUploadProgress : Z;
  file : option File;
  fileMetadata : option FileMetadata;
  vendorUpload : option VendorUpload;
  sanityUpload : option SanityUpload;
  videoScreenshot : option Blob;
  audioWaveform : option (list Q);
  error : option ErrorInfo
}.

(** [INITIAL_CONTEXT] (lines 41-44): two keys, everything else absent. *)
Definition INITIAL_CONTEXT : Context :=
  {| retries := 0;
     vendorUploadProgress := 0;
     file := None;
     fileMetadata := None;
     vendorUpload := None;
     sanityUpload := None;
     videoScreenshot := None;
     audioWaveform := None;
     error := None |}.

(** *** [assign]

    xstate computes a partial update from an [assign] action and merges it
    into the previous context with [Object.assign({}, context, update)]:
    a key of the update overwrites, a key the update does not have keeps
    its old value.  This holds for both forms of assigner, the object of
    per-key functions and the single function that returns an object.
    [None] below is "the update has no such key"; [Some None] is a key
    written with [undefined]. *)
Record Update := mkUpdate {
  u_retries : option Z;
  u_vendorUploadProgress : option Z;
  u_file : option (option File);
  u_fileMetadata : option (option FileMetadata);
  u_vendorUpload : option (option VendorUpload);
  u_sanityUpload : option (option SanityUpload);
  u_videoScreenshot : option (option Blob);
  u_audioWaveform : option (option (list Q));
  u_error : option (option ErrorInfo)
}.

Definition no_update : Update :=
  mkUpdate None None None None None None None None None.

Definition overwrite {A : Type} (old : A) (new : option A) : A :=
  match new with Some v => v | None => old end.

Definition assign (ctx : Context) (u : Update) : Context :=
  {| retries := overwrite (retries ctx) (u_retries u);
     vendorUploadProgress :=
       overwrite (vendorUploadProgress ctx) (u_vendorUploadProgress u);
     file := overwrite (file ctx) (u_file u);
     fileMetadata := overwrite (fileMetadata ctx) (u_fileMetadata u);
     vendorUpload := overwrite (vendorUpload ctx) (u_vendorUpload u);
     sanityUpload := overwrite (sanityUpload ctx) (u_sanityUpload u);
     videoScreenshot := overwrite (videoScreenshot ctx) (u_videoScreenshot u);
     audioWaveform := overwrite (audioWaveform ctx) (u_audioWaveform u);
     error := overwrite (error ctx) (u_error u) |}.

(** [{...c}]: the own keys of a context object.  An optional member that
    is absent contributes no key. *)
Definition spread (c : Context) : Update :=
  {| u_retries := Some (retries c);
     u_vendorUploadProgress := Some (vendorUploadProgress c);
     u_file := option_map Some (file c);
     u_fileMetadata := option_map Some (fileMetadata c);
     u_vendorUpload := option_map Some (vendorUpload c);
     u_sanityUpload := option_map Some (sanityUpload c);
     u_videoScreenshot := option_map Some (videoScreenshot c);
     u_audioWaveform := option_map Some (audioWaveform c);
     u_error := option_map Some (error c) |}.

(** *** States, events, actions *)

Inductive StateValue : Type :=
| idle
| extractingVideoMetadata
| extractingAudioMetadata
| uploadingToVendor
| uploadingToSanity
| success
| failure.

Definition StateValue_eqb (a b : StateValue) : bool :=
  match a, b with
  | idle, idle
  | extractingVideoMetadata, extractingVideoMetadata
  | extractingAudioMetadata, extractingAudioMetadata
  | uploadingToVendor, uploadingToVendor
  | uploadingToSanity, uploadingToSanity
  | success, success
  | failure, failure => true
  | _, _ => false
  end.

(** The [id] of each [invoke]. *)
Inductive ServiceId : Type :=
| ExtractVideoMetadata
| ExtractAudioMetadata
| FirebaseUpload
| SanityUpload_.

(** [UploadEvent] (lines 31-39), and the events xstate itself sends when
    an invoked promise settles: [done.invoke.<id>] carries the resolved
    value in [data], [error.platform.<id>] the rejection. *)
Inductive UploadEvent : Type :=
| SELECT_FILE (file : option File)
| RETRY
| RESET_UPLOAD
| CANCEL_INPUT
| VENDOR_ERROR (error : Error)
| VENDOR_PROGRESS (data : Z)
| VENDOR_DONE (data : VendorUpload)
| SANITY_DONE (data : SanityUpload)
| done_invoke_ExtractVideoMetadata
    (screenshot : option Blob) (metadata : FileMetadata)
| error_platform_ExtractVideoMetadata (data : option Error)
| done_invoke_ExtractAudioMetadata (metadata : FileMetadata)
| error_platform_ExtractAudioMetadata (data : option Error)
| done_invoke_SanityUpload (data : SanityUpload)
| error_platform_SanityUpload (data : option Error).

(** What the interpreter is asked to do after a transition: run the named
    action [invalidFileToast], start the service of the state entered, stop
    the service of the state left. *)
Inductive Action : Type :=
| invalidFileToast
| start (id : ServiceId)
| stop (id : ServiceId).

(** xstate's [State]: [state.value], [state.context], [state.actions]. *)
Record State := mkState {
  value : StateValue;
  context : Context;
  actions : list Action
}.

(** [state.matches(v)] for this flat machine. *)
Definition matches (state : State) (v : StateValue) : bool :=
  StateValue_eqb v (value state).

(** *** Guards (lines 298-301) *)

Definition canRetry (context : Context) : bool := (retries context <=? 3)%Z.

Definition hasUploadedToVendor (context : Context) : bool :=
  truthy (vendorUpload context).

(** The [cond] of the first two [SELECT_FILE] branches (lines 268-271 and
    280-283), with ['video'] or ['audio'] for [kind]:
    [(['idle', 'failure'].some(state.matches) &&
      event.file?.type?.includes(kind)) || false]. *)
Definition selects (kind : string) (state : State) (file : option File) : bool :=
  (existsb (matches state) [idle; failure]
   && match file with
      | Some f => includes (type f) kind
      | None => false
      end)
  || false.

(** *** Transitions *)

(** One entry of an [on] table once its [cond] has passed: where to go
    (nothing for a transition without [target]), the [assign] update and
    the named actions. *)
Record Transition := mkTransition {
  target : option StateValue;
  update : Update;
  named : list Action
}.

Definition credentials_hint : string :=
  "Make sure the right credentials are set in the plugins' settings.".

Definition try_again_hint : string :=
  "Try again in a few minutes, and if this still doesn't work reach a developer for help.".

Definition network_hint : string :=
  "This is probably due to a network error, please try again.".

(** The handlers a state node declares itself ([on], and [onDone] and
    [onError] of its [invoke]); [None] when the node has none for the
    event, or none whose [cond] holds. *)
Definition state_on (v : StateValue) (ctx : Context) (event : UploadEvent)
  : option Transition :=
  match v, event with
  | extractingVideoMetadata, done_invoke_ExtractVideoMetadata screenshot metadata =>
      Some {| target := Some uploadingToVendor;
              update := {| u_retries := None; u_vendorUploadProgress := None;
                           u_file := None;
                           u_fileMetadata := Some (Some metadata);
                           u_vendorUpload := None; u_sanityUpload := None;
                           u_videoScreenshot := Some screenshot;
                           u_audioWaveform := None; u_error := None |};
              named := [] |}
  | extractingVideoMetadata, error_platform_ExtractVideoMetadata _ =>
      Some {| target := Some uploadingToVendor; update := no_update; named := [] |}
  | extractingAudioMetadata, done_invoke_ExtractAudioMetadata metadata =>
      Some {| target := Some uploadingToVendor;
              update := {| u_retries := None; u_vendorUploadProgress := None;
                           u_file := None;
                           u_fileMetadata := Some (Some metadata);
                           u_vendorUpload := None; u_sanityUpload := None;
                           u_videoScreenshot := None;
                           u_audioWaveform := None; u_error := None |};
              named := [] |}
  | extractingAudioMetadata, error_platform_ExtractAudioMetadata _ =>
      Some {| target := Some uploadingToVendor; update := no_update; named := [] |}
  | uploadingToVendor, VENDOR_PROGRESS data =>
      Some {| target := None;
              update := {| u_retries := None;
                           u_vendorUploadProgress := Some data;
                           u_file := None; u_fileMetadata := None;
                           u_vendorUpload := None; u_sanityUpload := None;
                           u_videoScreenshot := None;
                           u_audioWaveform := None; u_error := None |};
              named := [] |}
  | uploadingToVendor, VENDOR_DONE data =>
      Some {| target := Some uploadingToSanity;
              update := {| u_retries := None; u_vendorUploadProgress := None;
                           u_file := None; u_fileMetadata := None;
                           u_vendorUpload := Some (Some data);
                           u_sanityUpload := None;
                           u_videoScreenshot := None;
                           u_audioWaveform := None; u_error := None |};
              named := [] |}
  | uploadingToVendor, VENDOR_ERROR err =>
      Some {| target := Some failure;
              update := {| u_retries := None; u_vendorUploadProgress := None;
                           u_file := None; u_fileMetadata := None;
                           u_vendorUpload := None; u_sanityUpload := None;
                           u_videoScreenshot := None;
                           u_audioWaveform := None;
                           u_error :=
                             Some (Some
                               {| cause := Some err;
                                  title := Some "Failed to upload";
                                  subtitle :=
                                    Some (if (retries ctx >? 1)%Z
                                          then credentials_hint
                                          else message err) |}) |};
              named := [] |}
  | uploadingToSanity, done_invoke_SanityUpload data =>
      Some {| target := Some success;
              update := {| u_retries := None; u_vendorUploadProgress := None;
                           u_file := None; u_fileMetadata := None;
                           u_vendorUpload := None;
                           u_sanityUpload := Some (Some data);
                           u_videoScreenshot := None;
                           u_audioWaveform := None; u_error := None |};
              named := [] |}
  | uploadingToSanity, error_platform_SanityUpload data =>
      Some {| target := Some failure;
              update := {| u_retries := None; u_vendorUploadProgress := None;
                           u_file := None; u_fileMetadata := None;
                           u_vendorUpload := None; u_sanityUpload := None;
                           u_videoScreenshot := None;
                           u_audioWaveform := None;
                           u_error :=
                             Some (Some
                               {| cause := data;
                                  title := Some "Failed to save to library";
                                  subtitle :=
                                    Some (if (retries ctx >? 0)%Z
                                          then try_again_hint
                                          else network_hint) |}) |};
              named := [] |}
  | success, RESET_UPLOAD =>
      Some {| target := Some idle;
              update := spread INITIAL_CONTEXT;
              named := [] |}
  | failure, RETRY =>
      let bump :=
        {| u_retries := Some (retries ctx + 1)%Z;
           u_vendorUploadProgress := None;
           u_file := None; u_fileMetadata := None;
           u_vendorUpload := None; u_sanityUpload := None;
           u_videoScreenshot := None;
           u_audioWaveform := None; u_error := None |} in
      if hasUploadedToVendor ctx
      then Some {| target := Some uploadingToSanity; update := bump; named := [] |}
      else Some {| target := Some uploadingToVendor; update := bump; named := [] |}
  | _, _ => None
  end.

(** The machine-level [on] table (lines 261-295), tried when the state
    node itself takes no transition. *)
Definition root_on (state : State) (event : UploadEvent) : option Transition :=
  match event with
  | CANCEL_INPUT =>
      Some {| target := Some idle; update := no_update; named := [] |}
  | SELECT_FILE f =>
      let store :=
        {| u_retries := None; u_vendorUploadProgress := None;
           u_file := Some f;
           u_fileMetadata := None; u_vendorUpload := None;
           u_sanityUpload := None; u_videoScreenshot := None;
           u_audioWaveform := None; u_error := None |} in
      if selects "video" state f
      then Some {| target := Some extractingVideoMetadata;
                   update := store; named := [] |}
      else if selects "audio" state f
      then Some {| target := Some extractingAudioMetadata;
                   update := store; named := [] |}
      else Some {| target := None; update := no_update;
                   named := [invalidFileToast] |}
  | _ => None
  end.

(** The service a state node invokes, started on entry and stopped on exit. *)
Definition invoke (v : StateValue) : option ServiceId :=
  match v with
  | extractingVideoMetadata => Some ExtractVideoMetadata
  | extractingAudioMetadata => Some ExtractAudioMetadata
  | uploadingToVendor => Some FirebaseUpload
  | uploadingToSanity => Some SanityUpload_
  | idle | success | failure => None
  end.

Definition on_exit (v : StateValue) : list Action :=
  match invoke v with Some id => [stop id] | None => [] end.

Definition on_entry (v : StateValue) : list Action :=
  match invoke v with Some id => [start id] | None => [] end.

(** Taking a transition: the context is updated; with a [target] the
    current node is left and the target entered, without one the machine
    stays where it is and only the named actions run. *)
Definition take (state : State) (t : Transition) : State :=
  let ctx := assign (context state) (update t) in
  match target t with
  | Some v =>
      {| value := v; context := ctx;
         actions := on_exit (value state) ++ named t ++ on_entry v |}
  | None =>
      {| value := value state; context := ctx; actions := named t |}
  end.

(** [machine.transition(state, event)]: the state node's own handlers
    first, then the machine's; an event nobody handles leaves value and
    context as they are. *)
Definition transition (state : State) (event : UploadEvent) : State :=
  match state_on (value state) (context state) event with
  | Some t => take state t
  | None =>
      match root_on state event with
      | Some t => take state t
      | None =>
          {| value := value state; context := context state; actions := [] |}
      end
  end.

Definition initialState : State :=
  {| value := idle; context := INITIAL_CONTEXT; actions := [] |}.

(** The machine after a sequence of events. *)
Definition run (state : State) (events : list UploadEvent) : State :=
  fold_left transition events state.

(** The states the interpreter can be in. *)
Inductive reachable : State -> Prop :=
| reachable_initial : reachable initialState
| reachable_step (state : State) (event : UploadEvent) :
    reachable state -> reachable (transition state event).

(** *** The audio extraction service (lines 117-151)

    [getWaveformData] is imported from scripts/getWaveformData and kept
    as a parameter: it resolves with the samples or throws.
    [loadedmetadata] is what the ['loadedmetadata'] listener has written
    into the local [metadata] by the time [getWaveformData] settles:
    [Some d] when it has run (the element's duration), [None] when
    [metadata] is still [{}].  The promise resolves with [{metadata}];
    the value below is that member, which is all [onDone] reads. *)
Definition ExtractAudioMetadata_src
    (getWaveformData : File -> Completion (list Q) Error)
    (loadedmetadata : option Q)
    (context : Context) : Completion FileMetadata unit :=
  match file context with
  | None => rejected tt
  | Some f =>
      if negb (includes (type f) "audio") then rejected tt
      else
        let metadata :=
          {| duration := loadedmetadata;
             dimensions := None;
             waveformData := None |} in
        match getWaveformData f with
        | resolved samples =>
            resolved {| duration := duration metadata;
                        dimensions := dimensions metadata;
                        waveformData := Some samples |}
        | rejected _ => resolved metadata
        end
  end.

(** The event the interpreter sends the machine when the invoked promise
    settles; [reject()] passes no reason. *)
Definition settled_ExtractAudioMetadata
    (c : Completion FileMetadata unit) : UploadEvent :=
  match c with
  | resolved m => done_invoke_ExtractAudioMetadata m
  | rejected _ => error_platform_ExtractAudioMetadata None
  end.

(** *** Words of the specification *)

(** A MIME type matches the pattern [major/*] when it starts with
    [major/]. *)
Definition mime_matches (major ty : string) : bool :=
  String.prefix (major ++ "/") ty.

(** *** The chart

    The arrows between state nodes, read off the [target]s: [CANCEL_INPUT]
    leads to [idle] from anywhere, and [RESET_UPLOAD] from [success]; a
    selection leaves [idle] or [failure] for one of the two extractions;
    an extraction ends in [uploadingToVendor]; the vendor upload ends in
    [uploadingToSanity] or [failure]; the registration in [success] or
    [failure]; [RETRY] leaves [failure] for one of the two uploads. *)
Definition chart (from to : StateValue) : bool :=
  match from, to with
  | _, idle => true
  | (idle | failure), (extractingVideoMetadata | extractingAudioMetadata) => true
  | (extractingVideoMetadata | extractingAudioMetadata), uploadingToVendor => true
  | uploadingToVendor, (uploadingToSanity | failure) => true
  | uploadingToSanity, (success | failure) => true
  | failure, (uploadingToSanity | uploadingToVendor) => true
  | _, _ => false
  end.

(** What a state knows about the selected file. *)
Definition file_known (state : State) : Prop :=
  (value state <> idle -> file (context state) <> None)
  /\ (value state = extractingVideoMetadata ->
      exists f, file (context state) = Some f
                /\ includes (type f) "video" = true)
  /\ (value state = extractingAudioMetadata ->
      exists f, file (context state) = Some f
                /\ includes (type f) "audio" = true).

End UploadMachine.

(** ** The Firebase vendor (packages/firebase/src/config.ts) *)

Module FirebaseConfig.
Import Js.

Record FirebaseCredentials := mkCredentials {
  apiKey : string;
  storageBucket : string
}.

(** *** [deleteFile] (lines 30-47) *)

(** [true | 'Error'] *)
Inductive DeleteResult : Type :=
| returns_true
| returns_Error.

(** [error?.code === 'storage/object-not-found']; the caught value may be
    [undefined] or carry no [code]. *)
Definition is_object_not_found (error : option Error) : bool :=
  match error with
  | Some e =>
      match code e with
      | Some c => String.eqb c "storage/object-not-found"
      | None => false
      end
  | None => false
  end.

(** [delete] stands for the body of the [try]: building the client and
    awaiting [ref(storedFile.firebase?.fullPath).delete()], which either
    completes or throws. *)
Definition deleteFile
    (delete : option string -> FirebaseCredentials -> Completion unit (option Error))
    (storedFile : UploadMachine.VendorUpload)
    (credentials : FirebaseCredentials) : DeleteResult :=
  match delete
          (match UploadMachine.firebase storedFile with
           | Some fb => UploadMachine.fullPath fb
           | None => None
           end)
          credentials
  with
  | resolved _ => returns_true
  | rejected error =>
      if is_object_not_found error then returns_true else returns_Error
  end.

(** *** The progress callback of [uploadFile] (lines 64-72) *)

(** [snapshot.bytesTransferred] and [snapshot.totalBytes] are byte
    counts. *)
Record UploadTaskSnapshot := mkSnapshot {
  bytesTransferred : Z;
  totalBytes : Z
}.

(** What the adapter calls back with. *)
Inductive Callback : Type :=
| updateProgress (progress : Z)
| onError (error : Error)
| onSuccess (result : UploadMachine.VendorUpload).

(** [/] and [*] on numbers compute the exact result and round it to a
    double.  [round] is that rounding, kept as a parameter; what is known
    of it is stated as [Rounding] below. *)
Section Numbers.
Variable round : Q -> Q.

Definition div (x y : Q) : Q := round (x / y).
Definition mul (x y : Q) : Q := round (x * y).

(** [Math.ceil] of a finite number is exact. *)
Definition Math_ceil (x : Q) : Z := Qceiling x.

(** [Math.ceil((snapshot.bytesTransferred / snapshot.totalBytes) * 100)] *)
Definition progress_of (snapshot : UploadTaskSnapshot) : Z :=
  Math_ceil
    (mul (div (inject_Z (bytesTransferred snapshot))
              (inject_Z (totalBytes snapshot)))
         (inject_Z 100)).

(** The ['state_changed'] observer. *)
Definition state_changed (snapshot : UploadTaskSnapshot) : Callback :=
  updateProgress (progress_of snapshot).

End Numbers.

(** Rounding to nearest is monotone, and an integer of magnitude up to
    2^53 is a double already. *)
Record Rounding (round : Q -> Q) : Prop := mkRounding {
  round_monotone : forall x y : Q, (x <= y)%Q -> (round x <= round y)%Q;
  round_integer :
    forall n : Z, (Z.abs n <= 2 ^ 53)%Z -> (round (inject_Z n) == inject_Z n)%Q
}.

(** *** The plugin's settings and the exported configuration (lines 1-29) *)

(** [config:firebase-dam]: what the studio's settings file may hold. *)
Record PluginConfig := mkPluginConfig {
  defaultAccept : option (list string);
  toolTitle : option string
}.

(** [pluginConfig?.defaultAccept || ['video/*', 'audio/*']] (lines 6-9).
    An array is truthy even when it is empty. *)
Definition DEFAULT_ACCEPT (pluginConfig : option PluginConfig) : list string :=
  match pluginConfig with
  | Some settings =>
      match defaultAccept settings with
      | Some patterns => patterns
      | None => ["video/*"; "audio/*"]
      end
  | None => ["video/*"; "audio/*"]
  end.

Record CredentialField := mkCredentialField {
  field_name : string;
  field_title : string;
  field_type : string
}.

(** The data members of [VendorConfiguration]. *)
Record VendorConfiguration := mkVendorConfiguration {
  id : string;
  config_defaultAccept : list string;
  config_toolTitle : string;
  supportsProgress : bool;
  credentialsFields : list CredentialField
}.

(** Evaluating the module up to [config] (lines 6-29).  [toolTitle] is
    read as [pluginConfig.toolTitle], without [?.]: with no settings
    object that read throws a [TypeError].  A string is falsy when it is
    empty. *)
Definition config (pluginConfig : option PluginConfig)
  : Completion VendorConfiguration unit :=
  match pluginConfig with
  | None => rejected tt
  | Some settings =>
      resolved
        {| id := "firebase";
           config_defaultAccept := DEFAULT_ACCEPT pluginConfig;
           config_toolTitle :=
             match toolTitle settings with
             | Some t => if String.eqb t EmptyString then "Videos & Audio" else t
             | None => "Videos & Audio"
             end;
           supportsProgress := true;
           credentialsFields :=
             [ {| field_name := "apiKey"; field_title := "API Key";
                  field_type := "string" |};
               {| field_name := "storageBucket"; field_title := "Storage Bucket";
                  field_type := "string" |} ] |}
  end.

(** *** The other two observers of [uploadFile] (lines 73-93) *)

(** [FullMetadata] of the storage SDK, as far as the adapter reads it,
    and two of the members it does not read. *)
Record FullMetadata := mkFullMetadata {
  md_bucket : option string;
  md_contentDisposition : option string;
  md_contentEncoding : option string;
  md_fullPath : option string;
  md_md5Hash : option string;
  md_generation : option string;
  md_metageneration : option string;
  md_type : option string;
  md_name : string;
  md_size : Z
}.

(** The error observer hands the error on. *)
Definition error_observer (error : Error) : Callback := onError error.

(** The completion observer, given what [getDownloadURL] and
    [getMetadata] resolved with. *)
Definition complete_observer (downloadURL : string) (metadata : FullMetadata)
  : Callback :=
  onSuccess
    {| UploadMachine.fileURL := downloadURL;
       UploadMachine.firebase :=
         Some {| UploadMachine.bucket := md_bucket metadata;
                 UploadMachine.contentDisposition := md_contentDisposition metadata;
                 UploadMachine.contentEncoding := md_contentEncoding metadata;
                 UploadMachine.fullPath := md_fullPath metadata;
                 UploadMachine.md5Hash := md_md5Hash metadata;
                 UploadMachine.generation := md_generation metadata;
                 UploadMachine.metageneration := md_metageneration metadata;
                 UploadMachine.firebase_type := md_type metadata |} |}.

End FirebaseConfig.

(** ** The signed-URL endpoint (packages/aws/getSignedUrl.example.js) *)

Module GetSignedUrl.
Import Js.

Local Open Scope N_scope.

(** A JavaScript string: its UTF-16 code units. *)
Definition JsString : Type := list N.

(** The code units of an ASCII literal. *)
Definition str (s : string) : JsString :=
  List.map N_of_ascii (list_ascii_of_string s).

Fixpoint JsString_eqb (a b : JsString) : bool :=
  match a, b with
  | [], [] => true
  | x :: a', y :: b' => (x =? y) && JsString_eqb a' b'
  | _, _ => false
  end.

(** *** [JSON.parse]

    The JSON grammar of ECMA-404 as [JSON.parse] reads it: one value
    between optional white space, nothing after it.  A number keeps its
    literal, since the handler never computes with one. *)
#[local] Unset Elimination Schemes.
Inductive Json : Type :=
| JNull
| JBool (b : bool)
| JNumber (literal : JsString)
| JString (s : JsString)
| JArray (items : list Json)
| JObject (members : list (JsString * Json)).
#[local] Set Elimination Schemes.

(** Tab, line feed, carriage return, space. *)
Definition is_ws (c : N) : bool :=
  (c =? 9) || (c =? 10) || (c =? 13) || (c =? 32).

Fixpoint skip_ws (s : JsString) : JsString :=
  match s with
  | c :: rest => if is_ws c then skip_ws rest else s
  | [] => []
  end.

Definition is_digit (c : N) : bool := (48 <=? c) && (c <=? 57).

(** The value of a hexadecimal digit. *)
Definition hex (c : N) : option N :=
  if is_digit c then Some (c - 48)
  else if (65 <=? c) && (c <=? 70) then Some (c - 55)
  else if (97 <=? c) && (c <=? 102) then Some (c - 87)
  else None.

(** The one-letter escapes: quote, backslash, slash, b, f, n, r, t. *)
Definition escape (c : N) : option N :=
  if c =? 34 then Some 34
  else if c =? 92 then Some 92
  else if c =? 47 then Some 47
  else if c =? 98 then Some 8
  else if c =? 102 then Some 12
  else if c =? 110 then Some 10
  else if c =? 114 then Some 13
  else if c =? 116 then Some 9
  else None.

(** The characters of a string literal after its opening quote, up to and
    including the closing one; [acc] holds what was read, last first. *)
Fixpoint string_chars (s acc : JsString) {struct s} : option (JsString * JsString) :=
  match s with
  | [] => None
  | c :: rest =>
      if c =? 34 then Some (rev acc, rest)
      else if c =? 92 then
        match rest with
        | [] => None
        | e :: rest1 =>
            if e =? 117 then
              match rest1 with
              | h1 :: h2 :: h3 :: h4 :: rest2 =>
                  match hex h1, hex h2, hex h3, hex h4 with
                  | Some a, Some b, Some c', Some d =>
                      string_chars rest2
                        (((a * 16 + b) * 16 + c') * 16 + d :: acc)
                  | _, _, _, _ => None
                  end
              | _ => None
              end
            else
              match escape e with
              | Some u => string_chars rest1 (u :: acc)
              | None => None
              end
        end
      else if c <? 32 then None
      else string_chars rest (c :: acc)
  end.

(** The longest run of digits at the head of [s], and what follows. *)
Fixpoint digits (s : JsString) : JsString * JsString :=
  match s with
  | c :: rest =>
      if is_digit c
      then let (ds, tail) := digits rest in (c :: ds, tail)
      else ([], s)
  | [] => ([], [])
  end.

(** A number literal: an optional minus; then a single 0, or a digit from
    1 to 9 and any digits; then optionally a point and one digit or more;
    then optionally e or E, an optional sign, and one digit or more. *)
Definition number (s : JsString) : option (JsString * JsString) :=
  let (sign, s1) :=
    match s with
    | c :: rest => if c =? 45 then ([c], rest) else ([], s)
    | [] => ([], s)
    end in
  let (int, s2) := digits s1 in
  match int with
  | [] => None
  | d :: more =>
      if (d =? 48) && negb (match more with [] => true | _ => false end)
      then None
      else
        let frac :=
          match s2 with
          | c :: rest =>
              if c =? 46 then
                let (ds, tail) := digits rest in
                match ds with
                | [] => None
                | _ => Some (c :: ds, tail)
                end
              else Some ([], s2)
          | [] => Some ([], s2)
          end in
        match frac with
        | None => None
        | Some (f, s3) =>
            let exp :=
              match s3 with
              | c :: rest =>
                  if (c =? 101) || (c =? 69) then
                    let (sg, rest1) :=
                      match rest with
                      | c1 :: r1 =>
                          if (c1 =? 43) || (c1 =? 45) then ([c1], r1) else ([], rest)
                      | [] => ([], rest)
                      end in
                    let (ds, tail) := digits rest1 in
                    match ds with
                    | [] => None
                    | _ => Some ((c :: sg ++ ds)%list, tail)
                    end
                  else Some ([], s3)
              | [] => Some ([], s3)
              end in
            match exp with
            | None => None
            | Some (e, s4) => Some ((sign ++ int ++ f ++ e)%list, s4)
            end
        end
  end.

(** [s] without the literal [word] at its head. *)
Fixpoint keyword (word s : JsString) : option JsString :=
  match word, s with
  | [], _ => Some s
  | w :: word', c :: rest => if w =? c then keyword word' rest else None
  | _ :: _, [] => None
  end.

(** A value, the rest of an array after its bracket, the rest of an object
    after its brace.  Every call spends one unit of [fuel]; two calls in a
    row read at least one character, so twice the length of the text (and
    two) is enough. *)
Fixpoint value (fuel : nat) (s : JsString) {struct fuel}
  : option (Json * JsString) :=
  match fuel with
  | O => None
  | S fuel' =>
      match skip_ws s with
      | [] => None
      | c :: rest =>
          if c =? 123 then
            match skip_ws rest with
            | c1 :: rest1 =>
                if c1 =? 125 then Some (JObject [], rest1)
                else members fuel' rest []
            | [] => None
            end
          else if c =? 91 then
            match skip_ws rest with
            | c1 :: rest1 =>
                if c1 =? 93 then Some (JArray [], rest1)
                else elements fuel' rest []
            | [] => None
            end
          else if c =? 34 then
            match string_chars rest [] with
            | Some (text, tail) => Some (JString text, tail)
            | None => None
            end
          else
            match keyword (str "true") (c :: rest) with
            | Some tail => Some (JBool true, tail)
            | None =>
                match keyword (str "false") (c :: rest) with
                | Some tail => Some (JBool false, tail)
                | None =>
                    match keyword (str "null") (c :: rest) with
                    | Some tail => Some (JNull, tail)
                    | None =>
                        match number (c :: rest) with
                        | Some (literal, tail) => Some (JNumber literal, tail)
                        | None => None
                        end
                    end
                end
            end
      end
  end

with elements (fuel : nat) (s : JsString) (acc : list Json) {struct fuel}
  : option (Json * JsString) :=
  match fuel with
  | O => None
  | S fuel' =>
      match value fuel' s with
      | Some (v, tail) =>
          match skip_ws tail with
          | c :: rest =>
              if c =? 44 then elements fuel' rest (v :: acc)
              else if c =? 93 then Some (JArray (rev (v :: acc)), rest)
              else None
          | [] => None
          end
      | None => None
      end
  end

with members (fuel : nat) (s : JsString) (acc : list (JsString * Json))
  {struct fuel} : option (Json * JsString) :=
  match fuel with
  | O => None
  | S fuel' =>
      match skip_ws s with
      | c :: rest =>
          if c =? 34 then
            match string_chars rest [] with
            | Some (key, tail) =>
                match skip_ws tail with
                | c1 :: rest1 =>
                    if c1 =? 58 then
                      match value fuel' rest1 with
                      | Some (v, tail1) =>
                          match skip_ws tail1 with
                          | c2 :: rest2 =>
                              if c2 =? 44
                              then members fuel' rest2 ((key, v) :: acc)
                              else if c2 =? 125
                              then Some (JObject (rev ((key, v) :: acc)), rest2)
                              else None
                          | [] => None
                          end
                      | None => None
                      end
                    else None
                | [] => None
                end
            | None => None
            end
          else None
      | [] => None
      end
  end.

(** [JSON.parse(text)]: [None] when it throws a [SyntaxError]. *)
Definition JSON_parse (text : JsString) : option Json :=
  match value (2 * length text + 2) text with
  | Some (v, tail) =>
      match skip_ws tail with
      | [] => Some v
      | _ :: _ => None
      end
  | None => None
  end.

(** *** The request *)

(** The Lambda proxy event, as far as the handler reads it: the method in
    one of the three places the API Gateway payload formats put it, and
    the body.  Method names are ASCII. *)
Record Http := mkHttp { method : option string }.

Record RequestContext := mkRequestContext {
  context_httpMethod : option string;
  http : option Http
}.

Record Event := mkEvent {
  httpMethod : option string;
  requestContext : option RequestContext;
  body : option JsString
}.

(** [a || b] on optional strings: [undefined] and the empty string are
    falsy. *)
Definition or_else (a b : option string) : option string :=
  match a with
  | Some s => if String.eqb s EmptyString then b else a
  | None => b
  end.

Definition upper (c : ascii) : ascii :=
  let n := N_of_ascii c in
  if (97 <=? n) && (n <=? 122) then ascii_of_N (n - 32) else c.

(** [s.toUpperCase()] on ASCII. *)
Fixpoint toUpperCase (s : string) : string :=
  match s with
  | EmptyString => EmptyString
  | String c rest => String (upper c) (toUpperCase rest)
  end.

(** [event.httpMethod || event?.requestContext?.httpMethod ||
     event?.requestContext?.http?.method] (line 23) *)
Definition method_of (event : Event) : option string :=
  or_else
    (or_else (httpMethod event)
       (match requestContext event with
        | Some rc => context_httpMethod rc
        | None => None
        end))
    (match requestContext event with
     | Some rc =>
         match http rc with
         | Some h => method h
         | None => None
         end
     | None => None
     end).

(** [method?.toUpperCase() === "OPTIONS"] (line 24) *)
Definition is_OPTIONS (event : Event) : bool :=
  match method_of event with
  | Some m => String.eqb (toUpperCase m) "OPTIONS"
  | None => false
  end.

(** *** The response *)

(** What [createPresignedPost] hands its callback on success. *)
Record PresignedPost := mkPresignedPost {
  url : string;
  fields : list (string * string)
}.

(** The value [JSON.stringify] is applied to for the response body. *)
Inductive Payload : Type :=
| of_event (event : Event)
| with_message (text : string) (event : Event)
| of_error (error : Error)
| of_signed (signed : PresignedPost).

Record Response := mkResponse {
  statusCode : Z;
  payload : Payload;
  headers : list (string * string)
}.

(** [callback(error, response)] *)
Record Reply := mkReply {
  failed : option Error;
  response : Response
}.

Definition SECRET : JsString := str "SECRET_CODE".

Definition SHARED_HEADERS : list (string * string) :=
  [("Content-Type", "application/json")].

(** The member [key] of a parsed object; of two members with one key
    [JSON.parse] keeps the later. *)
Fixpoint get (key : JsString) (members : list (JsString * Json)) : option Json :=
  match members with
  | [] => None
  | (k, v) :: rest =>
      match get key rest with
      | Some later => Some later
      | None => if JsString_eqb k key then Some v else None
      end
  end.

(** One name of [const { contentType, fileName, secret } = body || {}]
    (line 46).  Only an object has members of its own: a falsy value is
    replaced by [{}], and reading these names from a number, a string, a
    boolean or an array gives [undefined]. *)
Definition destructure (parsed : Json) (key : JsString) : option Json :=
  match parsed with
  | JObject members => get key members
  | _ => None
  end.

(** [v === s] for a string [s]. *)
Definition is_string (v : option Json) (s : JsString) : bool :=
  match v with
  | Some (JString t) => JsString_eqb t s
  | _ => false
  end.

(** [event.body || "{}"] (line 34) *)
Definition body_or_braces (event : Event) : JsString :=
  match body event with
  | Some (c :: rest) => c :: rest
  | Some [] | None => str "{}"
  end.

(** [exports.handler] (lines 21-91).  [createPresignedPost] stands for the
    S3 call with the parameters the handler builds from [contentType] and
    [fileName]; it reports an error or the signed descriptor. *)
Definition handler
    (createPresignedPost :
       option Json -> option Json -> Completion PresignedPost Error)
    (event : Event) : Reply :=
  if is_OPTIONS event then
    {| failed := None;
       response := {| statusCode := 200; payload := of_event event;
                      headers := SHARED_HEADERS |} |}
  else
    match JSON_parse (body_or_braces event) with
    | None =>
        {| failed := None;
           response := {| statusCode := 400;
                          payload := with_message "Missing body" event;
                          headers := SHARED_HEADERS |} |}
    | Some parsed =>
        let contentType := destructure parsed (str "contentType") in
        let fileName := destructure parsed (str "fileName") in
        let secret := destructure parsed (str "secret") in
        if negb (is_string secret SECRET) then
          {| failed := None;
             response := {| statusCode := 401;
                            payload := with_message "Unauthorized" event;
                            headers := SHARED_HEADERS |} |}
        else
          match createPresignedPost contentType fileName with
          | rejected error =>
              {| failed := Some error;
                 response := {| statusCode := 500; payload := of_error error;
                                headers := SHARED_HEADERS |} |}
          | resolved signed =>
              {| failed := None;
                 response := {| statusCode := 200; payload := of_signed signed;
                                headers := SHARED_HEADERS |} |}
          end
    end.

(** *** [getRandomKey] (lines 13-15)

    [Math.random().toFixed(10).replace("0.", "")], as a function of the
    number [Math.random()] returned. *)

(** The character of a decimal digit. *)
Definition digit_char (d : Z) : ascii := ascii_of_N (Z.to_N (48 + d)).

(** The [width] low decimal digits of [n], most significant first. *)
Fixpoint fixed_width (width : nat) (n : Z) : string :=
  match width with
  | O => EmptyString
  | S w => fixed_width w (n / 10) ++ String (digit_char (n mod 10)) EmptyString
  end.

(** [s] without its leading zeros, the last character apart. *)
Fixpoint strip_zeros (s : string) : string :=
  match s with
  | String c (String _ _ as tail) =>
      if Ascii.eqb c "0" then strip_zeros tail else s
  | _ => s
  end.

(** The decimal representation of [n >= 0]; no more digits are needed
    than [n] has bits. *)
Definition decimal (n : Z) : string :=
  strip_zeros (fixed_width (S (Z.to_nat (Z.log2 n))) n).

(** [x.toFixed(f)] for [x] below 10^21: with [n] the integer nearest to
    [x * 10^f], the larger one of two, the digits of [n] with a point
    before the last [f] of them, and a minus sign for a negative [x]. *)
Definition toFixed (f : nat) (x : Q) : string :=
  let unsigned (y : Q) : string :=
    let n := Qfloor (y * inject_Z (10 ^ Z.of_nat f) + (1 # 2)) in
    decimal (n / 10 ^ Z.of_nat f)
    ++ match f with
       | O => EmptyString
       | S _ => String "." (fixed_width f n)
       end in
  if Qle_bool 0 x then unsigned x else String "-" (unsigned (- x)%Q).

(** [s] without its first [n] characters. *)
Fixpoint drop (n : nat) (s : string) : string :=
  match n, s with
  | O, _ => s
  | S _, EmptyString => EmptyString
  | S k, String _ rest => drop k rest
  end.

(** [s.replace(pattern, replacement)] for a string pattern and a
    replacement without [$]: the first occurrence is replaced. *)
Fixpoint replace (s pattern replacement : string) {struct s} : string :=
  if String.prefix pattern s
  then replacement ++ drop (String.length pattern) s
  else match s with
       | EmptyString => EmptyString
       | String c rest => String c (replace rest pattern replacement)
       end.

Definition getRandomKey (random : Q) : string :=
  replace (toFixed 10 random) "0." EmptyString.

(** Every character of [s] is a decimal digit. *)
Fixpoint all_digits (s : string) : bool :=
  match s with
  | EmptyString => true
  | String c rest =>
      (48 <=? N_of_ascii c) && (N_of_ascii c <=? 57) && all_digits rest
  end.

End GetSignedUrl.

(** ** Sample values *)

Module Samples.
Import Js UploadMachine.
Local Open Scope Z_scope.

Definition clip : File :=
  {| name := "clip.mp4"; type := "video/mp4"; size := 1048576 |}.

Definition song : File :=
  {| name := "audio.mp3"; type := "audio/mpeg"; size := 524288 |}.

Definition picture : File :=
  {| name := "cover.png"; type := "image/png"; size := 2048 |}.

(** [application/vnd.audiograph] is a registered type that is neither
    [video/*] nor [audio/*]. *)
Definition audiograph : File :=
  {| name := "take.aep"; type := "application/vnd.audiograph"; size := 4096 |}.

Definition clip_metadata : FileMetadata :=
  {| duration := Some (30 # 1)%Q;
     dimensions := Some {| width := 640; height := 360 |};
     waveformData := None |}.

Definition clip_upload : VendorUpload :=
  {| fileURL := "https://firebasestorage.googleapis.com/v0/b/dam/o/clip.mp4";
     firebase := None |}.

Definition clip_document : SanityUpload :=
  {| _createdAt := "2021-06-01T10:00:00Z";
     title_ := Some "clip";
     description := None;
     externalFile := Some ("clip.mp4", 1048576%Z);
     metadata := Some clip_metadata |}.

Definition unauthorized : Error :=
  {| code := Some "storage/unauthorized";
     message := "User does not have permission to access the object." |}.

(** A video is selected, its metadata extracted, and the vendor refuses
    the upload. *)
Definition vendor_refuses : list UploadEvent :=
  [ SELECT_FILE (Some clip);
    done_invoke_ExtractVideoMetadata None clip_metadata;
    VENDOR_ERROR unauthorized ].

(** A video goes all the way to [success]. *)
Definition upload_succeeds : list UploadEvent :=
  [ SELECT_FILE (Some clip);
    done_invoke_ExtractVideoMetadata None clip_metadata;
    VENDOR_PROGRESS 100;
    VENDOR_DONE clip_upload;
    done_invoke_SanityUpload clip_document ].

(** A waveform computation that always throws. *)
Definition undecodable (_ : File) : Completion (list Q) Error :=
  rejected {| code := None; message := "Unable to decode audio data" |}.

(** The vendor refuses, the user retries, the vendor refuses again. *)
Definition refused_twice : State :=
  run initialState (vendor_refuses ++ [RETRY; VENDOR_ERROR unauthorized]).

(** The vendor refuses and the user retries. *)
Definition retried : State :=
  run initialState (vendor_refuses ++ [RETRY]).

(** A finished upload. *)
Definition uploaded : State := run initialState upload_succeeds.

(** The vendor refuses the first attempt and each of [n] retries. *)
Fixpoint retry_loop (n : nat) : list UploadEvent :=
  match n with
  | O => vendor_refuses
  | S k => retry_loop k ++ [RETRY; VENDOR_ERROR unauthorized]
  end.

(** After a finished upload and a reset, a song is selected and the vendor
    refuses it. *)
Definition second_upload_refused : list UploadEvent :=
  [ RESET_UPLOAD;
    SELECT_FILE (Some song);
    error_platform_ExtractAudioMetadata None;
    VENDOR_ERROR unauthorized ].

End Samples.

Module FirebaseSamples.
Import Js FirebaseConfig.
Local Open Scope Z_scope.

(** Arithmetic without rounding error. *)
Definition exact (x : Q) : Q := x.

(** One byte of three is through. *)
Definition a_third : UploadTaskSnapshot :=
  {| bytesTransferred := 1; totalBytes := 3 |}.

Definition dam_credentials : FirebaseCredentials :=
  {| apiKey := "AIza-example"; storageBucket := "dam.appspot.com" |}.

Definition stored_clip : UploadMachine.VendorUpload :=
  {| UploadMachine.fileURL := "https://firebasestorage.googleapis.com/v0/b/dam/o/clip.mp4";
     UploadMachine.firebase :=
       Some {| UploadMachine.bucket := Some "dam.appspot.com";
               UploadMachine.contentDisposition := None;
               UploadMachine.contentEncoding := None;
               UploadMachine.fullPath := Some "clip.mp4";
               UploadMachine.md5Hash := None;
               UploadMachine.generation := None;
               UploadMachine.metageneration := None;
               UploadMachine.firebase_type := Some "file" |} |}.

(** A bucket from which the object is already gone. *)
Definition already_gone (_ : option string) (_ : FirebaseCredentials)
  : Completion unit (option Error) :=
  rejected
    (Some {| code := Some "storage/object-not-found";
             message := "Object 'clip.mp4' does not exist." |}).

(** A bucket the credentials may not touch. *)
Definition forbidden (_ : option string) (_ : FirebaseCredentials)
  : Completion unit (option Error) :=
  rejected
    (Some {| code := Some "storage/unauthorized";
             message := "User does not have permission to access 'clip.mp4'." |}).

(** Two bytes of three are through. *)
Definition two_thirds : UploadTaskSnapshot :=
  {| bytesTransferred := 2; totalBytes := 3 |}.

(** Settings that accept nothing and leave the title empty. *)
Definition bare_settings : PluginConfig :=
  {| defaultAccept := Some []; toolTitle := Some EmptyString |}.

Definition clip_object : FullMetadata :=
  {| md_bucket := Some "dam.appspot.com";
     md_contentDisposition := None;
     md_contentEncoding := None;
     md_fullPath := Some "clip.mp4";
     md_md5Hash := None;
     md_generation := None;
     md_metageneration := None;
     md_type := Some "file";
     md_name := "clip.mp4";
     md_size := 1048576 |}.

(** A bucket that holds [clip.mp4] and nothing else. *)
Definition holds_clip (path : option string) (_ : FirebaseCredentials)
  : Completion unit (option Error) :=
  match path with
  | Some p =>
      if String.eqb p "clip.mp4" then resolved tt
      else rejected (Some {| code := Some "storage/unauthorized";
                             message := "User does not have permission." |})
  | None =>
      rejected (Some {| code := Some "storage/invalid-root-operation";
                        message := "The operation 'delete' cannot be performed on a root reference." |})
  end.

End FirebaseSamples.

Module SignedUrlSamples.
Import Js GetSignedUrl.
Local Open Scope Z_scope.

Definition post (text : option JsString) : Event :=
  {| httpMethod := Some "POST"; requestContext := None; body := text |}.

(** A pre-flight request in the HTTP API payload format. *)
Definition preflight : Event :=
  {| httpMethod := None;
     requestContext :=
       Some {| context_httpMethod := None;
               http := Some {| method := Some "options" |} |};
     body := None |}.

(** A text between double quotes. *)
Definition quoted (s : string) : JsString :=
  (34%N :: str s ++ [34%N])%list.

(** A request body that carries the right secret. *)
Definition right_secret : JsString :=
  (str "{ " ++ quoted "secret" ++ str ": " ++ quoted "SECRET_CODE" ++ str ", "
   ++ quoted "contentType" ++ str ": " ++ quoted "video/mp4" ++ str " }")%list.

(** An S3 client that signs whatever it is asked. *)
Definition signs (_ _ : option Json) : Completion PresignedPost Error :=
  resolved {| url := "https://s3.amazonaws.com/YOUR_BUCKET"; fields := [] |}.

(** An S3 client that is out of reach. *)
Definition unreachable (_ _ : option Json) : Completion PresignedPost Error :=
  rejected {| code := Some "NetworkingError"; message := "connect ETIMEDOUT" |}.

End SignedUrlSamples.

(** * Properties of the upload machine *)

Module UploadMachineFacts.
Import Js UploadMachine Samples.
Local Open Scope Z_scope.

(** ** Strings *)

Lemma prefix_includes (sub s : string) :
  String.prefix sub s = true -> includes s sub = true.
Proof.
  intros H. destruct s; cbn [includes]; rewrite H; reflexivity.
Qed.

Lemma prefix_app_l (a b s : string) :
  String.prefix (a ++ b) s = true -> String.prefix a s = true.
Proof.
  revert s. induction a as [|c a IH]; intros s H.
  - destruct s; reflexivity.
  - destruct s as [|d s]; [discriminate|]. simpl in *.
    destruct (ascii_dec c d); [|discriminate]. now apply IH.
Qed.

(** A type that matches [major/*] contains [major]. *)
Lemma mime_matches_includes (major ty : string) :
  mime_matches major ty = true -> includes ty major = true.
Proof.
  intros H. apply prefix_includes. exact (prefix_app_l _ _ _ H).
Qed.

(** ** Reading a transition *)

Lemma assign_no_update (ctx : Context) : assign ctx no_update = ctx.
Proof. destruct ctx; reflexivity. Qed.

Lemma run_app (state : State) (xs ys : list UploadEvent) :
  run state (xs ++ ys)%list = run (run state xs) ys.
Proof. apply fold_left_app. Qed.

Lemma reachable_run (state : State) (events : list UploadEvent) :
  reachable state -> reachable (run state events).
Proof.
  revert state. induction events as [|e events IH]; intros state H; simpl.
  - exact H.
  - apply IH. now constructor.
Qed.

Lemma reachable_trace (state : State) :
  reachable state -> exists events, state = run initialState events.
Proof.
  induction 1 as [|state event _ [events ->]].
  - now exists [].
  - exists (events ++ [event])%list. now rewrite run_app.
Qed.

(** Unfolds one transition and splits on every guard met on the way. *)
Ltac transition_cases :=
  unfold transition, take, state_on, root_on; simpl;
  repeat match goal with
         | |- context [if ?b then _ else _] => destruct b eqn:?; simpl
         end.

(** No event received in [failure] touches [error]. *)
Lemma error_kept_in_failure
    (ctx : Context) (acts : list Action) (event : UploadEvent) :
  error (context (transition
                    {| value := failure; context := ctx; actions := acts |}
                    event))
  = error ctx.
Proof.
  destruct event; transition_cases; reflexivity.
Qed.

(** Entering [failure] writes [error]. *)
Lemma failure_entered (state : State) (event : UploadEvent) :
  value (transition state event) = failure ->
  value state = failure \/ error (context (transition state event)) <> None.
Proof.
  destruct state as [v ctx acts].
  destruct v, event; transition_cases; intros H;
    try discriminate; try (left; reflexivity); right; discriminate.
Qed.

Lemma failure_has_error (state : State) :
  reachable state -> value state = failure -> error (context state) <> None.
Proof.
  induction 1 as [|state event Hr IH]; intros Hv.
  - discriminate.
  - destruct (failure_entered _ _ Hv) as [Hf|He]; [|exact He].
    destruct state as [v ctx acts]; simpl in Hf; subst v.
    rewrite error_kept_in_failure. now apply IH.
Qed.

(** ** C1: retrying from [failure] *)

(** C1.  From [failure], whatever the context, [RETRY] leads to
    [uploadingToSanity] exactly when [vendorUpload] is present, and then
    the vendor service [FirebaseUpload] is not started; it leads to
    [uploadingToVendor] when [vendorUpload] is absent.  Either way
    [retries] grows by exactly one and every other member of the context
    is what it was. *)
Theorem retry_from_failure (ctx : Context) (acts : list Action) :
  let next :=
    transition {| value := failure; context := ctx; actions := acts |} RETRY in
  (value next = uploadingToSanity <-> vendorUpload ctx <> None)
  /\ (vendorUpload ctx = None -> value next = uploadingToVendor)
  /\ (vendorUpload ctx <> None -> ~ In (start FirebaseUpload) (actions next))
  /\ context next =
       {| retries := retries ctx + 1;
          vendorUploadProgress := vendorUploadProgress ctx;
          file := file ctx;
          fileMetadata := fileMetadata ctx;
          vendorUpload := vendorUpload ctx;
          sanityUpload := sanityUpload ctx;
          videoScreenshot := videoScreenshot ctx;
          audioWaveform := audioWaveform ctx;
          error := error ctx |}.
Proof.
  unfold transition, state_on, hasUploadedToVendor; simpl.
  destruct (vendorUpload ctx) as [v|] eqn:Hv; simpl.
  - split; [split; congruence|].
    split; [congruence|].
    split; [|unfold assign; simpl; now rewrite Hv].
    intros _ [H|[]]. discriminate.
  - split; [split; [discriminate|congruence]|].
    split; [reflexivity|].
    split; [congruence|unfold assign; simpl; now rewrite Hv].
Qed.

(** ** C2: a file that is neither video nor audio *)

(** C2, as the machine has it.  The guards test whether the MIME type
    contains [video] or [audio].  For a file whose type contains neither,
    [SELECT_FILE] in [idle] or [failure] leaves the state value and the
    whole context as they were, and the one action is [invalidFileToast]. *)
Theorem select_other_file_rejected (state : State) (f : File) :
  value state = idle \/ value state = failure ->
  includes (type f) "video" = false ->
  includes (type f) "audio" = false ->
  let next := transition state (SELECT_FILE (Some f)) in
  value next = value state
  /\ context next = context state
  /\ actions next = [invalidFileToast].
Proof.
  intros Hv Hvideo Haudio.
  destruct state as [v ctx acts]; simpl in Hv.
  unfold transition, root_on, selects, take; simpl.
  rewrite Hvideo, Haudio.
  destruct Hv as [-> | ->]; simpl; rewrite assign_no_update; auto.
Qed.

Lemma select_other_file_rejected_witness :
  let next := transition initialState (SELECT_FILE (Some picture)) in
  value next = idle
  /\ context next = INITIAL_CONTEXT
  /\ actions next = [invalidFileToast].
Proof.
  apply (select_other_file_rejected initialState picture);
    [left; reflexivity | reflexivity | reflexivity].
Defined.

(** C2 as stated fails: [application/vnd.audiograph] matches neither
    [video/*] nor [audio/*], yet selecting such a file in [idle] is
    accepted as audio: the machine moves to [extractingAudioMetadata],
    stores the file and shows no notice. *)
Lemma select_audiograph_accepted :
  let next := transition initialState (SELECT_FILE (Some audiograph)) in
  mime_matches "video" (type audiograph) = false
  /\ mime_matches "audio" (type audiograph) = false
  /\ value next = extractingAudioMetadata
  /\ file (context next) = Some audiograph
  /\ ~ (value next = value initialState
        /\ context next = context initialState
        /\ In invalidFileToast (actions next)).
Proof.
  repeat split; try reflexivity.
  intros [H _]. discriminate H.
Qed.

(** ** C4: [retries] when a file is selected *)

(** C4, as the machine has it.  An accepted [SELECT_FILE] (a file whose
    type contains [video] or [audio], selected in [idle] or [failure])
    writes [file] and nothing else: [retries] afterwards is [retries]
    before, so it is 0 exactly when it was 0. *)
Theorem select_file_keeps_retries (state : State) (f : File) :
  value state = idle \/ value state = failure ->
  includes (type f) "video" = true \/ includes (type f) "audio" = true ->
  let next := transition state (SELECT_FILE (Some f)) in
  (value next = extractingVideoMetadata \/ value next = extractingAudioMetadata)
  /\ retries (context next) = retries (context state)
  /\ (retries (context next) = 0 <-> retries (context state) = 0)
  /\ context next =
       {| retries := retries (context state);
          vendorUploadProgress := vendorUploadProgress (context state);
          file := Some f;
          fileMetadata := fileMetadata (context state);
          vendorUpload := vendorUpload (context state);
          sanityUpload := sanityUpload (context state);
          videoScreenshot := videoScreenshot (context state);
          audioWaveform := audioWaveform (context state);
          error := error (context state) |}.
Proof.
  intros Hv Hkind.
  destruct state as [v ctx acts]; simpl in Hv |- *.
  unfold transition, root_on, selects, take; simpl.
  destruct Hv as [-> | ->]; simpl;
    destruct (includes (type f) "video") eqn:Hvideo; simpl;
    try (repeat split; auto; fail);
    destruct Hkind as [Hk | Hk]; try discriminate; rewrite Hk; simpl;
    repeat split; auto.
Qed.

Lemma select_file_keeps_retries_witness :
  (value refused_twice = idle \/ value refused_twice = failure)
  /\ (includes (type song) "video" = true \/ includes (type song) "audio" = true)
  /\ retries (context (transition refused_twice (SELECT_FILE (Some song))))
     = retries (context refused_twice).
Proof.
  split; [right; reflexivity|].
  split; [right; reflexivity|].
  apply (select_file_keeps_retries refused_twice song);
    right; reflexivity.
Defined.

(** C4 as stated fails.  The vendor refuses a video, the user retries, the
    vendor refuses again, and the user selects another video: the file is
    accepted in [failure] and [retries] is still 1. *)
Lemma select_file_after_retry :
  let next := transition refused_twice (SELECT_FILE (Some clip)) in
  reachable refused_twice
  /\ value refused_twice = failure
  /\ value next = extractingVideoMetadata
  /\ retries (context next) = 1
  /\ retries (context next) <> 0.
Proof.
  repeat split; try reflexivity.
  - apply reachable_run. constructor.
  - discriminate.
Qed.

(** ** C3: the life of [error] *)

(** C3, as the machine has it.  [error] is present in every reachable
    [failure] state, and the transitions that leave [failure] do not
    clear it: whatever event takes the machine out of [failure], [error]
    afterwards is the [error] it had.  In particular [RETRY],
    [CANCEL_INPUT] and [SELECT_FILE] from [failure] keep the error they
    found. *)
Theorem error_kept_after_failure :
  (forall state : State,
      reachable state -> value state = failure ->
      error (context state) <> None)
  /\ (forall (ctx : Context) (acts : list Action) (event : UploadEvent),
         let state := {| value := failure; context := ctx; actions := acts |} in
         value (transition state event) <> failure ->
         error (context (transition state event)) = error ctx)
  /\ (forall (ctx : Context) (acts : list Action),
         let state := {| value := failure; context := ctx; actions := acts |} in
         error (context (transition state RETRY)) = error ctx
         /\ error (context (transition state CANCEL_INPUT)) = error ctx
         /\ forall f, error (context (transition state (SELECT_FILE f))) = error ctx).
Proof.
  split; [exact failure_has_error|].
  split.
  - intros ctx acts event state _. apply error_kept_in_failure.
  - intros ctx acts state. subst state.
    split; [|split; [|intros f]]; apply error_kept_in_failure.
Qed.

Lemma error_kept_after_failure_witness :
  error (context refused_twice) <> None
  /\ value refused_twice = failure
  /\ value (transition refused_twice RETRY) <> failure
  /\ error (context (transition refused_twice RETRY))
     = error (context refused_twice).
Proof.
  split.
  - apply (proj1 error_kept_after_failure).
    + apply reachable_run. constructor.
    + reflexivity.
  - split; [reflexivity|]. split; [discriminate|].
    apply (proj1 (proj2 error_kept_after_failure)
             (context refused_twice) (actions refused_twice) RETRY).
    discriminate.
Defined.

(** C3 as stated fails.  After the vendor has refused the upload and the
    user has asked to retry, the machine is in [uploadingToVendor], a
    reachable state other than [failure], and [error] still holds the
    refusal. *)
Lemma error_present_while_retrying :
  reachable retried
  /\ value retried = uploadingToVendor
  /\ value retried <> failure
  /\ error (context retried)
     = Some {| cause := Some unauthorized;
               title := Some "Failed to upload";
               subtitle := Some (message unauthorized) |}
  /\ error (context retried) <> None.
Proof.
  split; [apply reachable_run; constructor|].
  repeat split; try reflexivity; discriminate.
Qed.

(** ** C5: [RESET_UPLOAD] *)

(** [RESET_UPLOAD] in [success] goes to [idle] and writes the two keys of
    [INITIAL_CONTEXT]; the update has no other key, so every optional
    member keeps its value. *)
Lemma reset_merges_initial_context (ctx : Context) (acts : list Action) :
  let next :=
    transition {| value := success; context := ctx; actions := acts |}
      RESET_UPLOAD in
  value next = idle
  /\ context next =
       {| retries := 0;
          vendorUploadProgress := 0;
          file := file ctx;
          fileMetadata := fileMetadata ctx;
          vendorUpload := vendorUpload ctx;
          sanityUpload := sanityUpload ctx;
          videoScreenshot := videoScreenshot ctx;
          audioWaveform := audioWaveform ctx;
          error := error ctx |}.
Proof. split; reflexivity. Qed.

(** C5 at a finished upload: after [RESET_UPLOAD] the machine is in
    [idle] with [retries] and [vendorUploadProgress] at 0, but the file,
    its metadata and both upload results are still in the context, which
    therefore is not [INITIAL_CONTEXT]. *)
Theorem reset_after_upload_keeps_results :
  let next := transition uploaded RESET_UPLOAD in
  value uploaded = success
  /\ value next = idle
  /\ retries (context next) = 0
  /\ vendorUploadProgress (context next) = 0
  /\ file (context next) = Some clip
  /\ fileMetadata (context next) = Some clip_metadata
  /\ vendorUpload (context next) = Some clip_upload
  /\ sanityUpload (context next) = Some clip_document
  /\ context next <> INITIAL_CONTEXT.
Proof.
  repeat split; try reflexivity. discriminate.
Qed.

(** What the stale [vendorUpload] does next: a second file is selected
    after the reset, the vendor refuses it, and [RETRY] skips the vendor
    and registers the first file's upload. *)
Lemma retry_after_reset_skips_vendor :
  let next :=
    run uploaded
      [ RESET_UPLOAD;
        SELECT_FILE (Some song);
        error_platform_ExtractAudioMetadata None;
        VENDOR_ERROR unauthorized;
        RETRY ] in
  value next = uploadingToSanity
  /\ file (context next) = Some song
  /\ vendorUpload (context next) = Some clip_upload.
Proof. repeat split; reflexivity. Qed.

(** ** C6: the message after a vendor error *)

(** C6.  [VENDOR_ERROR] in [uploadingToVendor] leads to [failure] and
    stores an error with the vendor's error as cause and the title
    [Failed to upload]; its subtitle is the credentials hint when
    [retries] is greater than 1 and the vendor's message otherwise (so,
    unless the vendor's message is the hint itself, it is the hint exactly
    when [retries > 1]).  Nothing else in the context changes. *)
Theorem vendor_error_subtitle (ctx : Context) (acts : list Action) (err : Error) :
  let next :=
    transition {| value := uploadingToVendor; context := ctx; actions := acts |}
      (VENDOR_ERROR err) in
  value next = failure
  /\ (exists info : ErrorInfo,
         error (context next) = Some info
         /\ cause info = Some err
         /\ title info = Some "Failed to upload"
         /\ (1 < retries ctx -> subtitle info = Some credentials_hint)
         /\ (retries ctx <= 1 -> subtitle info = Some (message err))
         /\ (message err <> credentials_hint ->
             (subtitle info = Some credentials_hint <-> 1 < retries ctx)))
  /\ context next =
       {| retries := retries ctx;
          vendorUploadProgress := vendorUploadProgress ctx;
          file := file ctx;
          fileMetadata := fileMetadata ctx;
          vendorUpload := vendorUpload ctx;
          sanityUpload := sanityUpload ctx;
          videoScreenshot := videoScreenshot ctx;
          audioWaveform := audioWaveform ctx;
          error := error (context next) |}.
Proof.
  unfold transition, take; simpl.
  split; [reflexivity|].
  split; [|reflexivity].
  eexists. split; [reflexivity|]. simpl.
  split; [reflexivity|]. split; [reflexivity|].
  rewrite Z.gtb_ltb.
  destruct (Z.ltb_spec 1 (retries ctx)) as [Hlt|Hle].
  - split; [reflexivity|]. split; [lia|]. intros _. split; auto.
  - split; [lia|]. split; [reflexivity|].
    intros Hne. split; [|lia]. intros H. congruence.
Qed.

(** ** C7: audio extraction *)

(** C7.  The audio extraction rejects exactly when the context has no
    file or the file's type does not contain [audio].  For an audio file
    whose waveform computation throws it resolves with the metadata
    gathered so far, the duration if the element reported one and no
    waveform, and on that result the machine stores the metadata and
    enters [uploadingToVendor], starting the vendor upload.  A rejection
    leads to [uploadingToVendor] as well. *)
Theorem audio_extraction_never_blocks
    (getWaveformData : File -> Completion (list Q) Error)
    (loadedmetadata : option Q) (ctx : Context) (acts : list Action) :
  let outcome := ExtractAudioMetadata_src getWaveformData loadedmetadata ctx in
  let next :=
    transition
      {| value := extractingAudioMetadata; context := ctx; actions := acts |}
      (settled_ExtractAudioMetadata outcome) in
  (outcome = rejected tt <->
   file ctx = None
   \/ exists f, file ctx = Some f /\ includes (type f) "audio" = false)
  /\ (forall f e,
         file ctx = Some f ->
         includes (type f) "audio" = true ->
         getWaveformData f = rejected e ->
         let gathered :=
           {| duration := loadedmetadata;
              dimensions := None;
              waveformData := None |} in
         outcome = resolved gathered
         /\ value next = uploadingToVendor
         /\ fileMetadata (context next) = Some gathered
         /\ In (start FirebaseUpload) (actions next))
  /\ value next = uploadingToVendor.
Proof.
  unfold ExtractAudioMetadata_src.
  destruct (file ctx) as [f|] eqn:Hf; simpl.
  - destruct (includes (type f) "audio") eqn:Haudio; simpl.
    + destruct (getWaveformData f) as [samples|e0] eqn:Hw; simpl.
      * split; [split; [discriminate|]|].
        { intros [H|[g [Hg Hn]]]; [discriminate|]. congruence. }
        split; [|reflexivity].
        intros g e Hg _ Hr. congruence.
      * split; [split; [discriminate|]|].
        { intros [H|[g [Hg Hn]]]; [discriminate|]. congruence. }
        split; [|reflexivity].
        intros g e Hg _ Hr. repeat split. right. left. reflexivity.
    + split; [split; [|reflexivity]|].
      { intros _. right. exists f. split; [reflexivity|exact Haudio]. }
      split; [|reflexivity].
      intros g e Hg Ha. congruence.
  - split; [split; [|reflexivity]|].
    { intros _. left. reflexivity. }
    split; [|reflexivity].
    intros g e Hg. discriminate.
Qed.

Lemma audio_extraction_never_blocks_witness :
  let ctx := context (transition initialState (SELECT_FILE (Some song))) in
  let gathered :=
    {| duration := Some (12 # 1)%Q; dimensions := None; waveformData := None |} in
  file ctx = Some song
  /\ includes (type song) "audio" = true
  /\ undecodable song
     = rejected {| code := None; message := "Unable to decode audio data" |}
  /\ ExtractAudioMetadata_src undecodable (Some (12 # 1)%Q) ctx = resolved gathered
  /\ value
       (transition
          (transition initialState (SELECT_FILE (Some song)))
          (settled_ExtractAudioMetadata
             (ExtractAudioMetadata_src undecodable (Some (12 # 1)%Q) ctx)))
     = uploadingToVendor.
Proof.
  intros ctx gathered.
  split; [reflexivity|]. split; [reflexivity|]. split; [reflexivity|].
  pose proof
    (proj1 (proj2
       (audio_extraction_never_blocks undecodable (Some (12 # 1)%Q) ctx
          [start ExtractAudioMetadata]))
       song _ eq_refl eq_refl eq_refl) as H.
  split.
  - exact (proj1 H).
  - exact (proj1 (proj2 H)).
Defined.

(** * Further properties of the upload machine *)

(** ** Selecting a file *)

(** No state node handles [SELECT_FILE] itself: the machine-level table
    decides, by its two guards in order. *)
Lemma select_file_cases (state : State) (f : option File) :
  transition state (SELECT_FILE f)
  = if selects "video" state f then
      {| value := extractingVideoMetadata;
         context := assign (context state)
                      {| u_retries := None; u_vendorUploadProgress := None;
                         u_file := Some f;
                         u_fileMetadata := None; u_vendorUpload := None;
                         u_sanityUpload := None; u_videoScreenshot := None;
                         u_audioWaveform := None; u_error := None |};
         actions := on_exit (value state) ++ [start ExtractVideoMetadata] |}
    else if selects "audio" state f then
      {| value := extractingAudioMetadata;
         context := assign (context state)
                      {| u_retries := None; u_vendorUploadProgress := None;
                         u_file := Some f;
                         u_fileMetadata := None; u_vendorUpload := None;
                         u_sanityUpload := None; u_videoScreenshot := None;
                         u_audioWaveform := None; u_error := None |};
         actions := on_exit (value state) ++ [start ExtractAudioMetadata] |}
    else
      {| value := value state; context := context state;
         actions := [invalidFileToast] |}.
Proof.
  destruct state as [v ctx acts].
  assert (Hnone : state_on v ctx (SELECT_FILE f) = None) by (destruct v; reflexivity).
  unfold transition. cbn [value context]. rewrite Hnone.
  unfold root_on.
  destruct (selects "video" _ f); [reflexivity|].
  destruct (selects "audio" _ f); [reflexivity|].
  unfold take. cbn. now rewrite assign_no_update.
Qed.

Lemma selects_true (kind : string) (state : State) (f : option File) :
  selects kind state f = true <->
  (value state = idle \/ value state = failure)
  /\ exists g, f = Some g /\ includes (type g) kind = true.
Proof.
  unfold selects, matches. rewrite orb_false_r, andb_true_iff.
  split.
  - intros [Hs Hf]. split.
    + destruct (value state); simpl in Hs; try discriminate; auto.
    + destruct f as [g|]; [|discriminate]. now exists g.
  - intros [Hs [g [-> Hg]]]. split; [|exact Hg].
    destruct Hs as [-> | ->]; reflexivity.
Qed.

Lemma selects_busy (kind : string) (state : State) (f : option File) :
  value state <> idle -> value state <> failure ->
  selects kind state f = false.
Proof.
  intros Hi Hf. destruct (selects kind state f) eqn:E; [|reflexivity].
  apply selects_true in E. destruct E as [[H|H] _]; contradiction.
Qed.

(** X1.  Only [idle] and [failure] take a new file.  In every other state
    [SELECT_FILE], whatever it carries, changes neither the state value
    nor the context, starts and stops nothing, and asks for the
    [invalidFileToast] notice. *)
Theorem selection_refused_while_busy (state : State) (f : option File) :
  value state <> idle ->
  value state <> failure ->
  let next := transition state (SELECT_FILE f) in
  value next = value state
  /\ context next = context state
  /\ actions next = [invalidFileToast].
Proof.
  intros Hi Hf. cbv zeta. rewrite select_file_cases.
  rewrite !selects_busy by assumption. repeat split.
Qed.

Lemma selection_refused_while_busy_witness :
  let state := transition initialState (SELECT_FILE (Some clip)) in
  let next := transition state (SELECT_FILE (Some song)) in
  value state = extractingVideoMetadata
  /\ value next = value state
  /\ file (context next) = Some clip
  /\ actions next = [invalidFileToast].
Proof.
  cbv zeta.
  destruct (selection_refused_while_busy
              (transition initialState (SELECT_FILE (Some clip))) (Some song))
    as (Hv & Hc & Ha); [discriminate|discriminate|].
  split; [reflexivity|]. split; [exact Hv|]. split; [now rewrite Hc|exact Ha].
Defined.

(** X2.  A [SELECT_FILE] event that carries no file is refused in every
    state: value and context stay, the notice is shown. *)
Theorem selection_without_file_refused (state : State) :
  let next := transition state (SELECT_FILE None) in
  value next = value state
  /\ context next = context state
  /\ actions next = [invalidFileToast].
Proof.
  cbv zeta. rewrite select_file_cases.
  assert (H : forall kind, selects kind state None = false).
  { intros kind. unfold selects. now rewrite andb_false_r. }
  rewrite !H. repeat split.
Qed.

(** In [idle] and [failure] a guard is the test on the file's type. *)
Lemma selects_accepting (kind : string) (state : State) (f : File) :
  value state = idle \/ value state = failure ->
  selects kind state (Some f) = includes (type f) kind.
Proof.
  intros Hs. unfold selects, matches. rewrite orb_false_r.
  destruct Hs as [-> | ->]; reflexivity.
Qed.

(** X3.  In [idle] or [failure] the file's type decides the route, video
    first: a type that contains [video] leads to
    [extractingVideoMetadata] even when it contains [audio] as well; a
    type that contains [audio] but not [video] leads to
    [extractingAudioMetadata].  Either way the file is stored and the
    matching extraction is the one service started. *)
Theorem selection_routed_by_type (state : State) (f : File) :
  value state = idle \/ value state = failure ->
  let next := transition state (SELECT_FILE (Some f)) in
  (includes (type f) "video" = true ->
   value next = extractingVideoMetadata
   /\ file (context next) = Some f
   /\ actions next = [start ExtractVideoMetadata])
  /\ (includes (type f) "video" = false ->
      includes (type f) "audio" = true ->
      value next = extractingAudioMetadata
      /\ file (context next) = Some f
      /\ actions next = [start ExtractAudioMetadata]).
Proof.
  intros Hs. cbv zeta. rewrite select_file_cases.
  rewrite !selects_accepting by exact Hs.
  assert (Hexit : on_exit (value state) = [])
    by (destruct Hs as [-> | ->]; reflexivity).
  rewrite Hexit. split.
  - intros ->. repeat split.
  - intros -> ->. repeat split.
Qed.

Lemma selection_routed_by_type_witness :
  (value refused_twice = idle \/ value refused_twice = failure)
  /\ includes (type song) "video" = false
  /\ includes (type song) "audio" = true
  /\ value (transition refused_twice (SELECT_FILE (Some song)))
     = extractingAudioMetadata.
Proof.
  split; [right; reflexivity|]. split; [reflexivity|]. split; [reflexivity|].
  apply (proj2 (selection_routed_by_type refused_twice song (or_intror eq_refl)));
    reflexivity.
Defined.

(** X4.  Every type the vendor accepts by default, [video/*] or
    [audio/*], is taken by the machine in [idle] and [failure]: the file
    is stored, an extraction state is entered and no notice is shown. *)
Theorem default_accept_is_selected (state : State) (f : File) :
  value state = idle \/ value state = failure ->
  mime_matches "video" (type f) = true \/ mime_matches "audio" (type f) = true ->
  let next := transition state (SELECT_FILE (Some f)) in
  (value next = extractingVideoMetadata \/ value next = extractingAudioMetadata)
  /\ (mime_matches "video" (type f) = true -> value next = extractingVideoMetadata)
  /\ file (context next) = Some f
  /\ ~ In invalidFileToast (actions next).
Proof.
  intros Hs Hm. cbv zeta. rewrite select_file_cases.
  rewrite !selects_accepting by exact Hs.
  assert (Hexit : on_exit (value state) = [])
    by (destruct Hs as [-> | ->]; reflexivity).
  rewrite Hexit.
  destruct (includes (type f) "video") eqn:Ev.
  - simpl. repeat split; auto. intros [H|[]]. discriminate H.
  - assert (Ea : includes (type f) "audio" = true).
    { destruct Hm as [H|H]; apply mime_matches_includes in H; congruence. }
    rewrite Ea. simpl. repeat split; auto.
    + intros H. apply mime_matches_includes in H. congruence.
    + intros [H|[]]. discriminate H.
Qed.

Lemma default_accept_is_selected_witness :
  (value initialState = idle \/ value initialState = failure)
  /\ (mime_matches "video" (type clip) = true
      \/ mime_matches "audio" (type clip) = true)
  /\ value (transition initialState (SELECT_FILE (Some clip)))
     = extractingVideoMetadata.
Proof.
  split; [left; reflexivity|]. split; [left; reflexivity|].
  apply (proj1 (proj2 (default_accept_is_selected initialState clip
                         (or_introl eq_refl) (or_introl eq_refl)))).
  reflexivity.
Defined.

(** ** Cancelling and progress *)

(** X5.  [CANCEL_INPUT] leads to [idle] from every state, stopping the
    service of the state it leaves, and it resets nothing: the whole
    context, [retries], [error] and the stored results included, is kept. *)
Theorem cancel_input_keeps_context (state : State) :
  let next := transition state CANCEL_INPUT in
  value next = idle
  /\ context next = context state
  /\ actions next
     = match invoke (value state) with
       | Some id => [stop id]
       | None => []
       end.
Proof.
  destruct state as [v ctx acts].
  destruct v; unfold transition, take; simpl;
    rewrite assign_no_update; repeat split.
Qed.

(** X6.  [VENDOR_PROGRESS] never changes the state value and never starts
    or stops a service.  In [uploadingToVendor] it overwrites
    [vendorUploadProgress] with the number it carries, unchecked, and
    nothing else; in every other state it is ignored. *)
Theorem vendor_progress_only_while_uploading (state : State) (p : Z) :
  let next := transition state (VENDOR_PROGRESS p) in
  value next = value state
  /\ actions next = []
  /\ (value state = uploadingToVendor ->
      context next =
        {| retries := retries (context state);
           vendorUploadProgress := p;
           file := file (context state);
           fileMetadata := fileMetadata (context state);
           vendorUpload := vendorUpload (context state);
           sanityUpload := sanityUpload (context state);
           videoScreenshot := videoScreenshot (context state);
           audioWaveform := audioWaveform (context state);
           error := error (context state) |})
  /\ (value state <> uploadingToVendor -> context next = context state).
Proof.
  destruct state as [v ctx acts].
  destruct v; unfold transition, take; simpl; repeat split;
    try reflexivity; try discriminate; intros H; congruence.
Qed.

(** ** The message after a failed registration *)

(** X7.  When the registration service rejects in [uploadingToSanity] the
    machine goes to [failure] with the rejection as cause and the title
    [Failed to save to library]; the subtitle asks to try again later once
    [retries] is above 0 and blames the network on the first attempt.
    The rest of the context, [vendorUpload] included, is kept. *)
Theorem registration_error_subtitle
    (ctx : Context) (acts : list Action) (data : option Error) :
  let next :=
    transition {| value := uploadingToSanity; context := ctx; actions := acts |}
      (error_platform_SanityUpload data) in
  value next = failure
  /\ actions next = [stop SanityUpload_]
  /\ (exists info : ErrorInfo,
         error (context next) = Some info
         /\ cause info = data
         /\ title info = Some "Failed to save to library"
         /\ (0 < retries ctx -> subtitle info = Some try_again_hint)
         /\ (retries ctx <= 0 -> subtitle info = Some network_hint))
  /\ context next =
       {| retries := retries ctx;
          vendorUploadProgress := vendorUploadProgress ctx;
          file := file ctx;
          fileMetadata := fileMetadata ctx;
          vendorUpload := vendorUpload ctx;
          sanityUpload := sanityUpload ctx;
          videoScreenshot := videoScreenshot ctx;
          audioWaveform := audioWaveform ctx;
          error := error (context next) |}.
Proof.
  unfold transition, take; simpl.
  split; [reflexivity|]. split; [reflexivity|]. split; [|reflexivity].
  eexists. split; [reflexivity|]. simpl.
  split; [reflexivity|]. split; [reflexivity|].
  rewrite Z.gtb_ltb.
  destruct (Z.ltb_spec 0 (retries ctx)); split; intros; try reflexivity; lia.
Qed.

(** ** The shape of the chart *)

(** X8.  A transition either stays in its state or follows an arrow of
    the chart, and every arrow is taken by some event in some context.
    So, for instance, [success] is entered from [uploadingToSanity] only,
    [failure] from the two uploads only, and [success] is left for [idle]
    only. *)
Theorem transitions_follow_chart :
  (forall (state : State) (event : UploadEvent),
      value (transition state event) = value state
      \/ chart (value state) (value (transition state event)) = true)
  /\ (forall a b : StateValue,
         chart a b = true ->
         exists ctx acts event,
           value (transition {| value := a; context := ctx; actions := acts |}
                    event) = b).
Proof.
  split.
  - intros [v ctx acts] event.
    destruct v, event; transition_cases;
      first [left; reflexivity | right; reflexivity].
  - intros a b H.
    destruct a, b; try discriminate H;
      first
        [ exists INITIAL_CONTEXT, [], CANCEL_INPUT; reflexivity
        | exists INITIAL_CONTEXT, [], (SELECT_FILE (Some clip)); reflexivity
        | exists INITIAL_CONTEXT, [], (SELECT_FILE (Some song)); reflexivity
        | exists INITIAL_CONTEXT, [], (error_platform_ExtractVideoMetadata None);
          reflexivity
        | exists INITIAL_CONTEXT, [], (error_platform_ExtractAudioMetadata None);
          reflexivity
        | exists INITIAL_CONTEXT, [], (VENDOR_DONE clip_upload); reflexivity
        | exists INITIAL_CONTEXT, [], (VENDOR_ERROR unauthorized); reflexivity
        | exists INITIAL_CONTEXT, [], (done_invoke_SanityUpload clip_document);
          reflexivity
        | exists INITIAL_CONTEXT, [], (error_platform_SanityUpload None);
          reflexivity
        | exists INITIAL_CONTEXT, [], RETRY; reflexivity
        | exists (context uploaded), [], RETRY; reflexivity ].
Qed.

(** ** What the reachable states hold *)

Lemma results_step (state : State) (event : UploadEvent) :
  (value state = uploadingToSanity \/ value state = success ->
   vendorUpload (context state) <> None) ->
  (value state = success -> sanityUpload (context state) <> None) ->
  let next := transition state event in
  (value next = uploadingToSanity \/ value next = success ->
   vendorUpload (context next) <> None)
  /\ (value next = success -> sanityUpload (context next) <> None).
Proof.
  destruct state as [v ctx acts]. simpl.
  intros H1 H2.
  destruct v, event; transition_cases; split; intros H;
    try discriminate H;
    try (destruct H as [H|H]; discriminate H);
    try (apply H1; auto; fail);
    try (apply H2; auto; fail);
    try discriminate.
  unfold hasUploadedToVendor, truthy in *.
  destruct (vendorUpload ctx); [discriminate|discriminate].
Qed.

(** X9.  In every reachable state, [uploadingToSanity] and [success] have
    a [vendorUpload] to work with, and [success] has the [sanityUpload]
    the registration returned. *)
Theorem results_present_when_needed (state : State) :
  reachable state ->
  (value state = uploadingToSanity \/ value state = success ->
   vendorUpload (context state) <> None)
  /\ (value state = success -> sanityUpload (context state) <> None).
Proof.
  induction 1 as [|state event _ [IH1 IH2]].
  - split; [intros [H|H]; discriminate H|intros H; discriminate H].
  - now apply results_step.
Qed.

Lemma results_present_when_needed_witness :
  reachable uploaded
  /\ value uploaded = success
  /\ vendorUpload (context uploaded) <> None
  /\ sanityUpload (context uploaded) <> None.
Proof.
  assert (Hr : reachable uploaded) by (apply reachable_run; constructor).
  destruct (results_present_when_needed uploaded Hr) as [H1 H2].
  split; [exact Hr|]. split; [reflexivity|].
  split; [apply H1; right; reflexivity|apply H2; reflexivity].
Defined.

Lemma file_known_step (state : State) (event : UploadEvent) :
  file_known state -> file_known (transition state event).
Proof.
  intros (Hfile & Hvideo & Haudio).
  destruct event as [f| | | | | | | | | | | | | ].
  1: {
    rewrite select_file_cases.
    destruct (selects "video" state f) eqn:Ev.
    { apply selects_true in Ev. destruct Ev as [_ [g [-> Hg]]].
      unfold file_known; simpl.
      split; [intros _; discriminate|].
      split; [intros _; now exists g|intros H; discriminate H]. }
    destruct (selects "audio" state f) eqn:Ea.
    { apply selects_true in Ea. destruct Ea as [_ [g [-> Hg]]].
      unfold file_known; simpl.
      split; [intros _; discriminate|].
      split; [intros H; discriminate H|intros _; now exists g]. }
    unfold file_known; simpl. auto. }
  all: destruct state as [v ctx acts]; unfold file_known in *; simpl in *;
    destruct v; transition_cases;
    repeat split; intros H; try discriminate H; try contradiction;
    try (apply Hfile; discriminate);
    try (apply Hvideo; reflexivity);
    try (apply Haudio; reflexivity).
Qed.

Lemma file_known_reachable (state : State) : reachable state -> file_known state.
Proof.
  induction 1 as [|state event _ IH].
  - repeat split; intros H; try discriminate H. now contradiction H.
  - now apply file_known_step.
Qed.

(** X10.  The machine never runs the audio extraction on anything but an
    audio file: in every reachable [extractingAudioMetadata] state the
    context holds a file whose type contains [audio], so the service's
    [reject()] is never executed and the extraction resolves whatever
    [getWaveformData] does.  More generally a file is present in every
    reachable state other than [idle]. *)
Theorem audio_extraction_always_resolves (state : State) :
  reachable state ->
  (value state <> idle -> file (context state) <> None)
  /\ (value state = extractingAudioMetadata ->
      forall (getWaveformData : File -> Completion (list Q) Error)
             (loadedmetadata : option Q),
      exists m,
        ExtractAudioMetadata_src getWaveformData loadedmetadata (context state)
        = resolved m).
Proof.
  intros Hr. destruct (file_known_reachable state Hr) as (Hfile & _ & Haudio).
  split; [exact Hfile|].
  intros Hv gw loaded. destruct (Haudio Hv) as [f [Hf Ha]].
  unfold ExtractAudioMetadata_src. rewrite Hf, Ha. simpl.
  destruct (gw f); eexists; reflexivity.
Qed.

Lemma audio_extraction_always_resolves_witness :
  let state := transition refused_twice (SELECT_FILE (Some song)) in
  reachable state
  /\ value state = extractingAudioMetadata
  /\ exists m,
       ExtractAudioMetadata_src undecodable None (context state) = resolved m.
Proof.
  cbv zeta.
  assert (Hr : reachable (transition refused_twice (SELECT_FILE (Some song))))
    by (constructor; apply reachable_run; constructor).
  split; [exact Hr|]. split; [reflexivity|].
  exact (proj2 (audio_extraction_always_resolves _ Hr) eq_refl undecodable None).
Defined.

(** ** Retries *)

(** X11.  [retries] is written by two transitions only: [RETRY] in
    [failure] adds one, [RESET_UPLOAD] in [success] sets it to 0.  Every
    other transition keeps it, so it never decreases within an upload, and
    it is never negative in a reachable state. *)
Theorem retries_written_by_retry_and_reset :
  (forall (state : State) (event : UploadEvent),
      let next := transition state event in
      retries (context next) = retries (context state)
      \/ (value state = failure /\ event = RETRY
          /\ retries (context next) = retries (context state) + 1)
      \/ (value state = success /\ event = RESET_UPLOAD
          /\ retries (context next) = 0))
  /\ (forall state : State, reachable state -> 0 <= retries (context state)).
Proof.
  assert (Hstep : forall (state : State) (event : UploadEvent),
             retries (context (transition state event)) = retries (context state)
             \/ (value state = failure /\ event = RETRY
                 /\ retries (context (transition state event))
                    = retries (context state) + 1)
             \/ (value state = success /\ event = RESET_UPLOAD
                 /\ retries (context (transition state event)) = 0)).
  { intros [v ctx acts] event.
    destruct v, event; transition_cases;
      first [ left; reflexivity
            | right; left; repeat split; reflexivity
            | right; right; repeat split; reflexivity ]. }
  split; [exact Hstep|].
  induction 1 as [|state event _ IH].
  - simpl. lia.
  - destruct (Hstep state event) as [H|[(_ & _ & H)|(_ & _ & H)]]; lia.
Qed.

(** X12.  Nothing caps the retries: the guard [canRetry] is attached to no
    transition.  For every [n] the machine reaches [failure] with
    [retries = n], and [RETRY] is taken from there all the same, also
    when [canRetry] is false. *)
Theorem retries_are_unbounded (n : nat) :
  let state := run initialState (retry_loop n) in
  reachable state
  /\ value state = failure
  /\ retries (context state) = Z.of_nat n
  /\ canRetry (context state) = (Z.of_nat n <=? 3)
  /\ value (transition state RETRY) = uploadingToVendor
  /\ retries (context (transition state RETRY)) = Z.of_nat n + 1.
Proof.
  cbv zeta.
  assert (H : value (run initialState (retry_loop n)) = failure
              /\ retries (context (run initialState (retry_loop n))) = Z.of_nat n
              /\ vendorUpload (context (run initialState (retry_loop n))) = None).
  { induction n as [|k IH].
    - repeat split.
    - cbn [retry_loop]. rewrite run_app.
      destruct (run initialState (retry_loop k)) as [v ctx acts].
      simpl in IH. destruct IH as (-> & Hr & Hv).
      unfold run; simpl. unfold transition, state_on, hasUploadedToVendor; simpl.
      rewrite Hv; simpl. unfold transition; simpl.
      rewrite Hr, Hv. repeat split. lia. }
  destruct H as (Hval & Hr & Hv).
  split; [apply reachable_run; constructor|].
  split; [exact Hval|]. split; [exact Hr|].
  split; [unfold canRetry; now rewrite Hr|].
  destruct (run initialState (retry_loop n)) as [v ctx acts]; simpl in *.
  subst v. unfold transition, state_on, hasUploadedToVendor; simpl.
  rewrite Hv; simpl. split; [reflexivity|lia].
Qed.

(** ** What is never removed *)

Lemma stored_step (state : State) (event : UploadEvent) :
  let next := transition state event in
  (file (context state) <> None -> file (context next) <> None)
  /\ (fileMetadata (context state) <> None -> fileMetadata (context next) <> None)
  /\ (vendorUpload (context state) <> None -> vendorUpload (context next) <> None)
  /\ (sanityUpload (context state) <> None -> sanityUpload (context next) <> None).
Proof.
  destruct state as [v ctx acts]. cbv zeta.
  destruct event as [f| | | | | | | | | | | | | ].
  1: {
    rewrite select_file_cases.
    destruct (selects "video" _ f) eqn:Ev;
      [apply selects_true in Ev; destruct Ev as [_ [g [-> _]]]; simpl;
       repeat split; auto; discriminate|].
    destruct (selects "audio" _ f) eqn:Ea;
      [apply selects_true in Ea; destruct Ea as [_ [g [-> _]]]; simpl;
       repeat split; auto; discriminate|].
    simpl. auto. }
  all: destruct v; transition_cases; repeat split; auto; discriminate.
Qed.

(** X13.  No transition removes [file], [fileMetadata], [vendorUpload] or
    [sanityUpload] once it is stored, [RESET_UPLOAD] included.  So from a
    state that has a [vendorUpload], whatever events follow, the guard
    [hasUploadedToVendor] holds, and a [RETRY] from [failure] goes to
    [uploadingToSanity] without another vendor upload. *)
Theorem stored_results_never_removed :
  (forall (state : State) (event : UploadEvent),
      let next := transition state event in
      (file (context state) <> None -> file (context next) <> None)
      /\ (fileMetadata (context state) <> None ->
          fileMetadata (context next) <> None)
      /\ (vendorUpload (context state) <> None ->
          vendorUpload (context next) <> None)
      /\ (sanityUpload (context state) <> None ->
          sanityUpload (context next) <> None))
  /\ (forall (state : State) (events : list UploadEvent),
         vendorUpload (context state) <> None ->
         let later := run state events in
         hasUploadedToVendor (context later) = true
         /\ (value later = failure ->
             value (transition later RETRY) = uploadingToSanity
             /\ ~ In (start FirebaseUpload) (actions (transition later RETRY)))).
Proof.
  split; [exact stored_step|].
  intros state events Hv. cbv zeta.
  assert (H : vendorUpload (context (run state events)) <> None).
  { revert state Hv. induction events as [|e events IH]; intros state Hv.
    - exact Hv.
    - simpl. apply IH. now apply stored_step. }
  destruct (run state events) as [v ctx acts]; simpl in *.
  assert (Hg : hasUploadedToVendor ctx = true).
  { unfold hasUploadedToVendor, truthy. destruct (vendorUpload ctx); congruence. }
  split; [exact Hg|].
  intros ->. unfold transition. cbn -[hasUploadedToVendor]. rewrite Hg. simpl.
  split; [reflexivity|]. intros [H'|[]]. discriminate H'.
Qed.

Lemma stored_results_never_removed_witness :
  let later := run uploaded second_upload_refused in
  vendorUpload (context uploaded) <> None
  /\ value later = failure
  /\ file (context later) = Some song
  /\ value (transition later RETRY) = uploadingToSanity.
Proof.
  cbv zeta.
  assert (Hv : vendorUpload (context uploaded) <> None) by discriminate.
  split; [exact Hv|]. split; [reflexivity|]. split; [reflexivity|].
  apply (proj2 stored_results_never_removed uploaded second_upload_refused Hv).
  reflexivity.
Defined.

(** X14.  The context member [audioWaveform] is dead: no transition
    writes it, so it is absent in every reachable state. *)
Theorem audio_waveform_never_written :
  (forall (state : State) (event : UploadEvent),
      audioWaveform (context (transition state event))
      = audioWaveform (context state))
  /\ (forall state : State, reachable state -> audioWaveform (context state) = None).
Proof.
  assert (Hstep : forall (state : State) (event : UploadEvent),
             audioWaveform (context (transition state event))
             = audioWaveform (context state)).
  { intros [v ctx acts] event. destruct v, event; transition_cases; reflexivity. }
  split; [exact Hstep|].
  induction 1 as [|state event _ IH]; [reflexivity|].
  now rewrite Hstep.
Qed.

(** ** Events out of place *)

(** X15.  An event that arrives in a state that does not expect it does
    nothing at all: [RETRY] outside [failure], [RESET_UPLOAD] outside
    [success], the vendor's [VENDOR_DONE] and [VENDOR_ERROR] outside
    [uploadingToVendor], a settled service outside the state that invoked
    it, and [SANITY_DONE] anywhere (the machine has no handler for it)
    leave the state value and the context alone and run no action. *)
Theorem stray_events_are_ignored (state : State) (event : UploadEvent) :
  match event with
  | RETRY => value state <> failure
  | RESET_UPLOAD => value state <> success
  | VENDOR_DONE _ | VENDOR_ERROR _ => value state <> uploadingToVendor
  | done_invoke_ExtractVideoMetadata _ _
  | error_platform_ExtractVideoMetadata _ =>
      value state <> extractingVideoMetadata
  | done_invoke_ExtractAudioMetadata _
  | error_platform_ExtractAudioMetadata _ =>
      value state <> extractingAudioMetadata
  | done_invoke_SanityUpload _
  | error_platform_SanityUpload _ => value state <> uploadingToSanity
  | SANITY_DONE _ => True
  | SELECT_FILE _ | CANCEL_INPUT | VENDOR_PROGRESS _ => False
  end ->
  let next := transition state event in
  value next = value state
  /\ context next = context state
  /\ actions next = [].
Proof.
  destruct state as [v ctx acts].
  destruct v, event; simpl; intros H; try contradiction;
    try (exfalso; apply H; reflexivity); repeat split.
Qed.

Lemma stray_events_are_ignored_witness :
  value uploaded <> failure
  /\ transition uploaded RETRY
     = {| value := success; context := context uploaded; actions := [] |}.
Proof.
  split; [discriminate|].
  destruct (stray_events_are_ignored uploaded RETRY) as (Hv & Hc & Ha);
    [discriminate|].
  destruct (transition uploaded RETRY) as [v c a]; simpl in *.
  now rewrite Hv, Hc, Ha.
Defined.

(** ** A whole upload *)

(** X16.  From the initial state, for any video file, the events of an
    upload that goes well end in [success] with the file, its metadata
    and screenshot, the last progress, the vendor's result and the
    registered document in the context, no error and [retries] at 0.
    When the extraction fails instead, the upload succeeds all the same,
    without metadata. *)
Theorem upload_succeeds_with_or_without_metadata
    (f : File) (screenshot : option Blob) (meta : FileMetadata) (p : Z)
    (stored : VendorUpload) (document : SanityUpload) (reason : option Error) :
  includes (type f) "video" = true ->
  run initialState
    [ SELECT_FILE (Some f);
      done_invoke_ExtractVideoMetadata screenshot meta;
      VENDOR_PROGRESS p;
      VENDOR_DONE stored;
      done_invoke_SanityUpload document ]
  = {| value := success;
       context := {| retries := 0;
                     vendorUploadProgress := p;
                     file := Some f;
                     fileMetadata := Some meta;
                     vendorUpload := Some stored;
                     sanityUpload := Some document;
                     videoScreenshot := screenshot;
                     audioWaveform := None;
                     error := None |};
       actions := [stop SanityUpload_] |}
  /\ run initialState
       [ SELECT_FILE (Some f);
         error_platform_ExtractVideoMetadata reason;
         VENDOR_PROGRESS p;
         VENDOR_DONE stored;
         done_invoke_SanityUpload document ]
     = {| value := success;
          context := {| retries := 0;
                        vendorUploadProgress := p;
                        file := Some f;
                        fileMetadata := None;
                        vendorUpload := Some stored;
                        sanityUpload := Some document;
                        videoScreenshot := None;
                        audioWaveform := None;
                        error := None |};
          actions := [stop SanityUpload_] |}.
Proof.
  intros Hv.
  assert (E : selects "video" initialState (Some f) = true)
    by (apply selects_true; split; [left; reflexivity|now exists f]).
  unfold run; cbn [fold_left]. rewrite select_file_cases, E.
  split; reflexivity.
Qed.

Lemma upload_succeeds_with_or_without_metadata_witness :
  includes (type clip) "video" = true
  /\ value (run initialState upload_succeeds) = success.
Proof.
  split; [reflexivity|].
  unfold upload_succeeds.
  rewrite (proj1 (upload_succeeds_with_or_without_metadata
                    clip None clip_metadata 100 clip_upload clip_document None
                    eq_refl)).
  reflexivity.
Defined.

End UploadMachineFacts.

(** * Properties of the Firebase vendor *)

Module FirebaseFacts.
Import Js FirebaseConfig FirebaseSamples.
Local Open Scope Z_scope.

Lemma exact_rounding : Rounding exact.
Proof.
  split.
  - intros x y H. exact H.
  - intros n _. reflexivity.
Qed.

Lemma round_bounds (round : Q -> Q) (lo hi : Z) (x : Q) :
  Rounding round ->
  Z.abs lo <= 2 ^ 53 -> Z.abs hi <= 2 ^ 53 ->
  (inject_Z lo <= x <= inject_Z hi)%Q ->
  (inject_Z lo <= round x <= inject_Z hi)%Q.
Proof.
  intros [Hmono Hint] Hlo Hhi [H1 H2]. split.
  - rewrite <- (Hint lo Hlo). now apply Hmono.
  - rewrite <- (Hint hi Hhi). now apply Hmono.
Qed.

(** ** C8: the progress reported while uploading *)

(** C8.  For a snapshot with [0 <= bytesTransferred <= totalBytes] and
    [totalBytes > 0], the observer calls [updateProgress] with
    [Math.ceil((bytesTransferred / totalBytes) * 100)], an integer between
    0 and 100, whatever the rounding of the division and of the
    multiplication, as long as it is monotone and exact on integers. *)
Theorem progress_in_range (round : Q -> Q) (snapshot : UploadTaskSnapshot) :
  Rounding round ->
  0 <= bytesTransferred snapshot <= totalBytes snapshot ->
  0 < totalBytes snapshot ->
  state_changed round snapshot = updateProgress (progress_of round snapshot)
  /\ progress_of round snapshot
     = Qceiling
         (round (round (inject_Z (bytesTransferred snapshot)
                        / inject_Z (totalBytes snapshot))
                 * inject_Z 100))%Q
  /\ 0 <= progress_of round snapshot <= 100.
Proof.
  intros HR [Hb Hbt] Ht.
  split; [reflexivity|]. split; [reflexivity|].
  destruct snapshot as [b t]; simpl in *.
  unfold progress_of, Math_ceil, mul, div; simpl.
  assert (Hq : (inject_Z 0 <= round (inject_Z b / inject_Z t) <= inject_Z 1)%Q).
  { apply (round_bounds round 0 1); [exact HR|simpl; lia|simpl; lia|].
    assert (Htq : (inject_Z 0 < inject_Z t)%Q) by (rewrite <- Zlt_Qlt; exact Ht).
    split.
    - apply Qle_shift_div_l; [exact Htq|].
      rewrite Qmult_0_l. change (inject_Z 0 <= inject_Z b)%Q.
      rewrite <- Zle_Qle. exact Hb.
    - apply Qle_shift_div_r; [exact Htq|].
      rewrite Qmult_1_l. rewrite <- Zle_Qle. exact Hbt. }
  destruct Hq as [Hq0 Hq1].
  assert (Hp : (inject_Z 0
                <= round (round (inject_Z b / inject_Z t) * inject_Z 100)
                <= inject_Z 100)%Q).
  { apply (round_bounds round 0 100); [exact HR|simpl; lia|simpl; lia|].
    split.
    - apply Qmult_le_0_compat; [exact Hq0|]. discriminate.
    - setoid_replace (inject_Z 100) with (inject_Z 1 * inject_Z 100)%Q at 2
        by reflexivity.
      apply Qmult_le_compat_r; [exact Hq1|]. discriminate. }
  destruct Hp as [Hp0 Hp1].
  split.
  - rewrite <- (Qceiling_Z 0). now apply Qceiling_resp_le.
  - rewrite <- (Qceiling_Z 100). now apply Qceiling_resp_le.
Qed.

Lemma progress_in_range_witness :
  0 <= bytesTransferred a_third <= totalBytes a_third
  /\ 0 < totalBytes a_third
  /\ progress_of exact a_third = 34
  /\ 0 <= progress_of exact a_third <= 100.
Proof.
  split; [simpl; lia|]. split; [simpl; lia|]. split; [reflexivity|].
  apply (progress_in_range exact a_third exact_rounding); simpl; lia.
Defined.

(** ** C10: deleting a stored file *)

(** C10.  [deleteFile] resolves with [true] when the deletion completes
    and also when it throws an error whose code is
    [storage/object-not-found]; whatever else is thrown, it resolves with
    the string [Error]. *)
Theorem deleteFile_result
    (delete : option string -> FirebaseCredentials -> Completion unit (option Error))
    (storedFile : UploadMachine.VendorUpload)
    (credentials : FirebaseCredentials) :
  let path :=
    match UploadMachine.firebase storedFile with
    | Some fb => UploadMachine.fullPath fb
    | None => None
    end in
  (delete path credentials = resolved tt ->
   deleteFile delete storedFile credentials = returns_true)
  /\ (forall e,
         delete path credentials = rejected (Some e) ->
         code e = Some "storage/object-not-found" ->
         deleteFile delete storedFile credentials = returns_true)
  /\ (forall thrown,
         delete path credentials = rejected thrown ->
         (forall e, thrown = Some e -> code e <> Some "storage/object-not-found") ->
         deleteFile delete storedFile credentials = returns_Error).
Proof.
  unfold deleteFile. simpl.
  split; [intros ->; reflexivity|].
  split.
  - intros e -> Hc. unfold is_object_not_found. rewrite Hc. reflexivity.
  - intros thrown -> Hne. unfold is_object_not_found.
    destruct thrown as [e|]; [|reflexivity].
    destruct (code e) as [c|] eqn:Hc; [|reflexivity].
    destruct (String.eqb_spec c "storage/object-not-found") as [->|]; [|reflexivity].
    exfalso. exact (Hne e eq_refl Hc).
Qed.

Lemma deleteFile_result_witness :
  deleteFile already_gone stored_clip dam_credentials = returns_true
  /\ deleteFile forbidden stored_clip dam_credentials = returns_Error.
Proof.
  split.
  - apply (proj1 (proj2 (deleteFile_result already_gone stored_clip dam_credentials))
             {| code := Some "storage/object-not-found";
                message := "Object 'clip.mp4' does not exist." |});
      reflexivity.
  - apply (proj2 (proj2 (deleteFile_result forbidden stored_clip dam_credentials))
             (Some {| code := Some "storage/unauthorized";
                      message := "User does not have permission to access 'clip.mp4'." |}));
      [reflexivity|].
    intros e [= <-]. discriminate.
Defined.

(** * Further properties of the Firebase vendor *)

Lemma round_proper (round : Q -> Q) (x y : Q) :
  Rounding round -> (x == y)%Q -> (round x == round y)%Q.
Proof.
  intros [Hmono _] Hxy. apply Qle_antisym; apply Hmono; rewrite Hxy; apply Qle_refl.
Qed.

(** X17.  The progress reported never goes back while the byte count
    grows: for one [totalBytes > 0], more bytes transferred give at least
    the same percentage, whatever the rounding. *)
Theorem progress_is_monotone (round : Q -> Q) (sooner later : UploadTaskSnapshot) :
  Rounding round ->
  0 < totalBytes sooner ->
  totalBytes later = totalBytes sooner ->
  bytesTransferred sooner <= bytesTransferred later ->
  progress_of round sooner <= progress_of round later.
Proof.
  intros HR Ht Hsame Hb.
  destruct sooner as [b1 t], later as [b2 t2];
    cbn [bytesTransferred totalBytes] in *. subst t2.
  unfold progress_of, Math_ceil, mul, div; simpl.
  destruct HR as [Hmono _].
  assert (Hinv : (0 <= / inject_Z t)%Q).
  { apply Qinv_le_0_compat. change (inject_Z 0 <= inject_Z t)%Q.
    rewrite <- Zle_Qle. clear - Ht. lia. }
  apply Qceiling_resp_le, Hmono.
  apply Qmult_le_compat_r; [|discriminate].
  apply Hmono. unfold Qdiv.
  apply Qmult_le_compat_r; [|exact Hinv].
  rewrite <- Zle_Qle. exact Hb.
Qed.

Lemma progress_is_monotone_witness :
  0 < totalBytes a_third
  /\ totalBytes two_thirds = totalBytes a_third
  /\ bytesTransferred a_third <= bytesTransferred two_thirds
  /\ progress_of exact a_third <= progress_of exact two_thirds.
Proof.
  split; [simpl; lia|]. split; [reflexivity|]. split; [simpl; lia|].
  apply (progress_is_monotone exact a_third two_thirds exact_rounding);
    simpl; (reflexivity || lia).
Defined.

(** X18.  The two ends of an upload are reported exactly, whatever the
    rounding: 0 while no byte is through and 100 once all of them are. *)
Theorem progress_at_both_ends (round : Q -> Q) (total : Z) :
  Rounding round ->
  0 < total ->
  progress_of round {| bytesTransferred := 0; totalBytes := total |} = 0
  /\ progress_of round {| bytesTransferred := total; totalBytes := total |} = 100.
Proof.
  intros HR Ht.
  assert (Hint : forall n : Z, Z.abs n <= 2 ^ 53 ->
                               (round (inject_Z n) == inject_Z n)%Q)
    by (destruct HR; assumption).
  assert (Hne : ~ (inject_Z total == 0)%Q).
  { intros H. change (inject_Z total == inject_Z 0)%Q in H.
    apply (proj1 (inject_Z_injective total 0)) in H. clear - H Ht. lia. }
  assert (H0 : (round (inject_Z 0) == inject_Z 0)%Q)
    by (apply Hint; clear; simpl; lia).
  assert (H1 : (round (inject_Z 1) == inject_Z 1)%Q)
    by (apply Hint; clear; simpl; lia).
  assert (H100 : (round (inject_Z 100) == inject_Z 100)%Q)
    by (apply Hint; clear; simpl; lia).
  unfold progress_of, Math_ceil, mul, div;
    cbn [bytesTransferred totalBytes].
  split.
  - assert (E1 : (round (inject_Z 0 / inject_Z total) == inject_Z 0)%Q).
    { apply Qeq_trans with (round (inject_Z 0)); [|exact H0].
      apply round_proper; [exact HR|]. unfold Qdiv. apply Qmult_0_l. }
    assert (E2 : (round (round (inject_Z 0 / inject_Z total) * inject_Z 100)
                  == inject_Z 0)%Q).
    { apply Qeq_trans with (round (inject_Z 0)); [|exact H0].
      apply round_proper; [exact HR|]. rewrite E1. apply Qmult_0_l. }
    rewrite E2. apply Qceiling_Z.
  - assert (E1 : (round (inject_Z total / inject_Z total) == inject_Z 1)%Q).
    { apply Qeq_trans with (round (inject_Z 1)); [|exact H1].
      apply round_proper; [exact HR|]. unfold Qdiv. now apply Qmult_inv_r. }
    assert (E2 : (round (round (inject_Z total / inject_Z total) * inject_Z 100)
                  == inject_Z 100)%Q).
    { apply Qeq_trans with (round (inject_Z 100)); [|exact H100].
      apply round_proper; [exact HR|]. rewrite E1. apply Qmult_1_l. }
    rewrite E2. apply Qceiling_Z.
Qed.

Lemma progress_at_both_ends_witness :
  0 < 3
  /\ progress_of exact {| bytesTransferred := 3; totalBytes := 3 |} = 100.
Proof.
  split; [lia|].
  apply (proj2 (progress_at_both_ends exact 3 exact_rounding ltac:(lia))).
Defined.

(** X19.  The defaults of the exported configuration.  A settings object
    without [defaultAccept] gets [video/*] and [audio/*], but a list that
    is there is kept as it is, the empty list too; a [toolTitle] that is
    missing or empty becomes [Videos & Audio].  With no settings object at
    all [DEFAULT_ACCEPT] still evaluates to the two patterns, yet building
    [config] throws. *)
Theorem configuration_defaults :
  (forall settings : PluginConfig,
      exists c,
        config (Some settings) = resolved c
        /\ id c = "firebase"
        /\ supportsProgress c = true
        /\ List.map field_name (credentialsFields c) = ["apiKey"; "storageBucket"]
        /\ (defaultAccept settings = None ->
            config_defaultAccept c = ["video/*"; "audio/*"])
        /\ (forall patterns, defaultAccept settings = Some patterns ->
                             config_defaultAccept c = patterns)
        /\ (toolTitle settings = None \/ toolTitle settings = Some EmptyString ->
            config_toolTitle c = "Videos & Audio")
        /\ (forall t, toolTitle settings = Some t -> t <> EmptyString ->
                      config_toolTitle c = t))
  /\ DEFAULT_ACCEPT None = ["video/*"; "audio/*"]
  /\ config None = rejected tt.
Proof.
  split; [|split; reflexivity].
  intros [accept ttl]. eexists. split; [reflexivity|]. simpl.
  repeat split.
  - intros ->. reflexivity.
  - intros patterns ->. reflexivity.
  - intros [-> | ->]; reflexivity.
  - intros t -> Hne. destruct (String.eqb_spec t EmptyString); [contradiction|reflexivity].
Qed.

(** X23.  What an upload stores is enough to delete it: [deleteFile],
    given the record a completed upload passed to [onSuccess], asks the
    SDK about the [fullPath] the upload's metadata reported and about
    nothing else.  So it resolves with [true] as soon as the deletion of
    that one path completes, and two SDKs that agree on that path give the
    same result. *)
Theorem upload_result_can_be_deleted
    (delete other : option string -> FirebaseCredentials -> Completion unit (option Error))
    (downloadURL : string) (metadata : FullMetadata)
    (credentials : FirebaseCredentials) (stored : UploadMachine.VendorUpload) :
  complete_observer downloadURL metadata = onSuccess stored ->
  (delete (md_fullPath metadata) credentials = resolved tt ->
   deleteFile delete stored credentials = returns_true)
  /\ (delete (md_fullPath metadata) credentials
      = other (md_fullPath metadata) credentials ->
      deleteFile delete stored credentials = deleteFile other stored credentials).
Proof.
  unfold complete_observer. intros [= <-]. unfold deleteFile; simpl.
  split; intros ->; reflexivity.
Qed.

Lemma upload_result_can_be_deleted_witness :
  complete_observer "https://firebasestorage.googleapis.com/v0/b/dam/o/clip.mp4"
    clip_object
  = onSuccess stored_clip
  /\ deleteFile holds_clip stored_clip dam_credentials = returns_true.
Proof.
  split; [reflexivity|].
  apply (proj1 (upload_result_can_be_deleted holds_clip holds_clip
                  "https://firebasestorage.googleapis.com/v0/b/dam/o/clip.mp4"
                  clip_object dam_credentials stored_clip eq_refl)).
  reflexivity.
Defined.

End FirebaseFacts.

(** * Properties of the signed-URL endpoint *)

Module GetSignedUrlFacts.
Import Js GetSignedUrl SignedUrlSamples.
Local Open Scope Z_scope.

Lemma JsString_eqb_eq (a b : JsString) : JsString_eqb a b = true <-> a = b.
Proof.
  revert b. induction a as [|x a IH]; intros [|y b]; simpl;
    try (split; [discriminate|discriminate]); [tauto|].
  rewrite andb_true_iff, N.eqb_eq, IH.
  split; [intros [-> ->]; reflexivity|intros [= -> ->]; auto].
Qed.

Lemma is_string_true (v : option Json) (s : JsString) :
  is_string v s = true <-> v = Some (JString s).
Proof.
  destruct v as [[| | |t| |]|]; simpl; try (split; discriminate).
  rewrite JsString_eqb_eq. split; [intros ->; reflexivity|intros [= ->]; reflexivity].
Qed.

(** The empty text is not JSON; the text the handler puts in its place is
    the empty object. *)
Lemma JSON_parse_empty : JSON_parse [] = None.
Proof. reflexivity. Qed.

Lemma JSON_parse_braces : JSON_parse (str "{}") = Some (JObject []).
Proof. reflexivity. Qed.

(** ** C9: the status of the response *)

(** C9, as the handler has it.  An OPTIONS request is answered 200
    whatever its body.  Any other request is answered 400 when its body is
    a non-empty text that is not JSON, and 401 when its body is JSON
    whose [secret] is not the configured secret; a request without a body,
    or with an empty one, is read as [{}] and answered 401. *)
Theorem handler_status
    (createPresignedPost :
       option Json -> option Json -> Completion PresignedPost Error)
    (event : Event) :
  let status := statusCode (response (handler createPresignedPost event)) in
  (is_OPTIONS event = true -> status = 200)
  /\ (is_OPTIONS event = false ->
      forall text,
        body event = Some text -> text <> [] -> JSON_parse text = None ->
        status = 400)
  /\ (is_OPTIONS event = false ->
      forall text parsed,
        body event = Some text -> JSON_parse text = Some parsed ->
        destructure parsed (str "secret") <> Some (JString SECRET) ->
        status = 401)
  /\ (is_OPTIONS event = false ->
      body event = None \/ body event = Some [] ->
      status = 401).
Proof.
  unfold handler, body_or_braces.
  split; [intros ->; reflexivity|].
  split; [|split].
  - intros -> text -> Hne Hp.
    destruct text as [|c rest]; [congruence|].
    rewrite Hp. reflexivity.
  - intros -> text parsed -> Hp Hs.
    destruct text as [|c rest]; [rewrite JSON_parse_empty in Hp; discriminate|].
    rewrite Hp.
    destruct (is_string (destructure parsed (str "secret")) SECRET) eqn:E.
    + apply is_string_true in E. contradiction.
    + reflexivity.
  - intros -> [-> | ->]; rewrite JSON_parse_braces; reflexivity.
Qed.

Lemma handler_status_witness :
  is_OPTIONS preflight = true
  /\ statusCode (response (handler signs preflight)) = 200
  /\ is_OPTIONS (post (Some (str "{secret"))) = false
  /\ JSON_parse (str "{secret") = None
  /\ statusCode (response (handler signs (post (Some (str "{secret"))))) = 400.
Proof.
  split; [reflexivity|].
  split;
    [apply (proj1 (handler_status signs preflight)); reflexivity|].
  split; [reflexivity|]. split; [reflexivity|].
  apply (proj1 (proj2 (handler_status signs (post (Some (str "{secret")))))
           eq_refl (str "{secret"));
    [reflexivity|discriminate|reflexivity].
Defined.

(** C9 as stated fails on a POST with an empty body: the empty text is
    not parseable JSON, the request is not OPTIONS, and the answer is 401
    rather than 400. *)
Lemma empty_body_is_unauthorized :
  let event := post (Some []) in
  is_OPTIONS event = false
  /\ body event = Some []
  /\ JSON_parse [] = None
  /\ statusCode (response (handler signs event)) = 401
  /\ statusCode (response (handler signs event)) <> 400.
Proof.
  repeat split; try reflexivity. discriminate.
Qed.

(** With the right secret the handler goes on to sign. *)
Lemma right_secret_is_signed :
  statusCode
    (response
       (handler signs
          (post (Some right_secret))))
  = 200.
Proof. reflexivity. Qed.

(** * Further properties of the signed-URL endpoint *)

(** X20.  The handler never signs without the secret.  A response that
    carries a presigned descriptor comes from a request that is not
    OPTIONS, whose body (or [{}] in its place) parsed to an object with the
    member [secret] equal to the configured secret, and the descriptor is
    the one S3 returned for that body's [contentType] and [fileName]. *)
Theorem signed_only_with_secret
    (createPresignedPost :
       option Json -> option Json -> Completion PresignedPost Error)
    (event : Event) (signed : PresignedPost) :
  payload (response (handler createPresignedPost event)) = of_signed signed ->
  is_OPTIONS event = false
  /\ exists parsed members,
       JSON_parse (body_or_braces event) = Some parsed
       /\ parsed = JObject members
       /\ get (str "secret") members = Some (JString SECRET)
       /\ createPresignedPost
            (destructure parsed (str "contentType"))
            (destructure parsed (str "fileName"))
          = resolved signed.
Proof.
  unfold handler.
  destruct (is_OPTIONS event); [discriminate|].
  destruct (JSON_parse (body_or_braces event)) as [parsed|]; [|discriminate].
  destruct (is_string (destructure parsed (str "secret")) SECRET) eqn:Hs;
    [|discriminate].
  apply is_string_true in Hs. simpl.
  destruct (createPresignedPost _ _) as [s|e] eqn:Hp; [|discriminate].
  intros [= <-]. split; [reflexivity|].
  destruct parsed as [| | | | |members]; try discriminate Hs.
  exists (JObject members), members. repeat split; assumption.
Qed.

Lemma signed_only_with_secret_witness :
  payload (response (handler signs (post (Some right_secret))))
  = of_signed {| url := "https://s3.amazonaws.com/YOUR_BUCKET"; fields := [] |}
  /\ is_OPTIONS (post (Some right_secret)) = false.
Proof.
  split; [reflexivity|].
  apply (signed_only_with_secret signs (post (Some right_secret))
           {| url := "https://s3.amazonaws.com/YOUR_BUCKET"; fields := [] |}).
  reflexivity.
Defined.

(** X21.  Whatever the request the response has one of the statuses 200,
    400, 401 and 500 and the shared JSON headers.  The callback gets an
    error exactly with status 500, which is what the handler answers when
    S3 refuses to sign a request that had the right secret; the error is
    then both the callback's error and the response's payload. *)
Theorem response_shape
    (createPresignedPost :
       option Json -> option Json -> Completion PresignedPost Error)
    (event : Event) :
  let reply := handler createPresignedPost event in
  let status := statusCode (response reply) in
  (status = 200 \/ status = 400 \/ status = 401 \/ status = 500)
  /\ headers (response reply) = SHARED_HEADERS
  /\ (failed reply <> None <-> status = 500)
  /\ (status = 500 ->
      exists parsed error,
        JSON_parse (body_or_braces event) = Some parsed
        /\ destructure parsed (str "secret") = Some (JString SECRET)
        /\ createPresignedPost
             (destructure parsed (str "contentType"))
             (destructure parsed (str "fileName"))
           = rejected error
        /\ failed reply = Some error
        /\ payload (response reply) = of_error error).
Proof.
  unfold handler.
  destruct (is_OPTIONS event).
  { simpl. repeat split; auto; try discriminate; intros H; now contradiction H. }
  destruct (JSON_parse (body_or_braces event)) as [parsed|].
  2: { simpl. repeat split; auto; try discriminate; intros H; now contradiction H. }
  destruct (is_string (destructure parsed (str "secret")) SECRET) eqn:Hs; simpl.
  2: { repeat split; auto 6; try discriminate; intros H; now contradiction H. }
  apply is_string_true in Hs.
  destruct (createPresignedPost _ _) as [s|e] eqn:Hp; simpl.
  - repeat split; auto; try discriminate; intros H; now contradiction H.
  - repeat split; auto 6; try discriminate.
    intros _. exists parsed, e. repeat split; assumption.
Qed.

(** ** The random key *)

Lemma append_length (a b : string) :
  String.length (a ++ b) = (String.length a + String.length b)%nat.
Proof. induction a as [|c a IH]; simpl; [reflexivity|now rewrite IH]. Qed.

Lemma all_digits_append (a b : string) :
  all_digits (a ++ b) = all_digits a && all_digits b.
Proof.
  induction a as [|c a IH]; simpl; [reflexivity|].
  rewrite IH. now rewrite andb_assoc.
Qed.

Lemma fixed_width_length (width : nat) (n : Z) :
  String.length (fixed_width width n) = width.
Proof.
  revert n. induction width as [|w IH]; intros n; simpl; [reflexivity|].
  rewrite append_length, IH. simpl. lia.
Qed.

Lemma fixed_width_digits (width : nat) (n : Z) :
  all_digits (fixed_width width n) = true.
Proof.
  revert n. induction width as [|w IH]; intros n; simpl; [reflexivity|].
  rewrite all_digits_append, IH. simpl.
  unfold digit_char.
  assert (Hd : 0 <= n mod 10 < 10) by (apply Z.mod_pos_bound; lia).
  rewrite N_ascii_embedding by lia.
  rewrite andb_true_r, andb_true_iff, !N.leb_le. lia.
Qed.

Lemma Qfloor_eq (x : Q) (z : Z) :
  (inject_Z z <= x)%Q -> (x < inject_Z (z + 1))%Q -> Qfloor x = z.
Proof.
  intros Hlo Hhi.
  assert (H1 : z <= Qfloor x).
  { rewrite <- (Qfloor_Z z). now apply Qfloor_resp_le. }
  assert (H2 : Qfloor x < z + 1).
  { rewrite Zlt_Qlt. eapply Qle_lt_trans; [apply Qfloor_le|exact Hhi]. }
  lia.
Qed.

(** X22.  [getRandomKey] gives ten decimal digits, those of
    [Math.random()] rounded to ten places, unless [Math.random()] is
    within 5e-11 of 1: then the rounding reaches 1, the text is
    [1.0000000000], in which [0.] does not occur, and the key is these
    twelve characters, point included. *)
Theorem random_key_digits (random : Q) :
  (0 <= random)%Q ->
  (random < 1)%Q ->
  let key := getRandomKey random in
  ((random < 1 - (1 # 20000000000))%Q ->
   key = fixed_width 10 (Qfloor (random * inject_Z 10000000000 + (1 # 2)))
   /\ String.length key = 10%nat
   /\ all_digits key = true)
  /\ ((1 - (1 # 20000000000) <= random)%Q -> key = "1.0000000000").
Proof.
  intros H0 H1. cbv zeta.
  assert (Hb : Qle_bool 0 random = true) by now apply Qle_bool_iff.
  unfold getRandomKey, toFixed. rewrite Hb. cbv beta zeta.
  change (10 ^ Z.of_nat 10) with 10000000000.
  set (n := Qfloor (random * inject_Z 10000000000 + (1 # 2))).
  split.
  - intros Hlt.
    assert (Hn : 0 <= n < 10000000000).
    { split.
      - rewrite <- (Qfloor_Z 0). apply Qfloor_resp_le.
        change (inject_Z 0) with 0%Q. change (inject_Z 10000000000) with (10000000000 # 1)%Q.
        lra.
      - rewrite Zlt_Qlt. eapply Qle_lt_trans; [apply Qfloor_le|].
        change (inject_Z 10000000000) with (10000000000 # 1)%Q. lra. }
    rewrite (Z.div_small n 10000000000 Hn).
    change (decimal 0) with "0".
    assert (E : replace ("0" ++ String "." (fixed_width 10 n)) "0." EmptyString
                = fixed_width 10 n) by reflexivity.
    rewrite E.
    split; [reflexivity|].
    split; [apply fixed_width_length|apply fixed_width_digits].
  - intros Hge.
    assert (Hn : n = 10000000000).
    { apply Qfloor_eq.
      - change (inject_Z 10000000000) with (10000000000 # 1)%Q. lra.
      - change (inject_Z 10000000000) with (10000000000 # 1)%Q.
        change (inject_Z (10000000000 + 1)) with (10000000001 # 1)%Q. lra. }
    rewrite Hn. reflexivity.
Qed.

Lemma random_key_digits_witness :
  (0 <= 1 # 2)%Q
  /\ (1 # 2 < 1)%Q
  /\ (1 # 2 < 1 - (1 # 20000000000))%Q
  /\ getRandomKey (1 # 2) = "5000000000"
  /\ String.length (getRandomKey (1 # 2)) = 10%nat.
Proof.
  assert (H0 : (0 <= 1 # 2)%Q) by discriminate.
  assert (H1 : (1 # 2 < 1)%Q) by reflexivity.
  assert (H2 : (1 # 2 < 1 - (1 # 20000000000))%Q) by reflexivity.
  split; [exact H0|]. split; [exact H1|]. split; [exact H2|].
  split; [reflexivity|].
  exact (proj1 (proj2 (proj1 (random_key_digits (1 # 2) H0 H1) H2))).
Defined.

End GetSignedUrlFacts.
